(** * Jacques status-line hook: the resolution-and-relay pipeline

    A shallow embedding of [src/hooks/statusline.py].  Python values that
    come out of [json.load] are an inductive type, exceptions are a sum,
    and everything the script touches outside its own memory (files, the
    clock, environment variables, subprocesses, the socket) is either a
    field of an explicit [world] that the functions thread, or an oracle of
    the operating system record [OS]. *)

From Stdlib Require Import ZArith QArith String Ascii List Bool Lia Lqa.
From Stdlib Require Import DecimalString DecimalPos.
From stdpp Require Import base gmap strings list.

Local Open Scope Z_scope.

(** ** Characters and strings

    A Python [str] is modelled by a [string] whose characters are code
    points below 256. *)

Module Str.

Definition LF : ascii := "010"%char.
Definition CR : ascii := "013"%char.
Definition QUOTE : ascii := "034"%char.

(** [str.isspace] on the code points below 256. *)
Definition isspace (c : ascii) : bool :=
  let n := nat_of_ascii c in
  ((9 <=? n) && (n <=? 13) || (28 <=? n) && (n <=? 32)
   || (n =? 133) || (n =? 160))%nat.

Definition is_empty (s : string) : bool :=
  match s with EmptyString => true | String _ _ => false end.

Fixpoint lstrip_by (space : ascii -> bool) (s : string) : string :=
  match s with
  | EmptyString => EmptyString
  | String c s' => if space c then lstrip_by space s' else s
  end.

(** [rstrip] keeps a character when it is not a space or when something
    is kept after it. *)
Fixpoint rstrip_by (space : ascii -> bool) (s : string) : string :=
  match s with
  | EmptyString => EmptyString
  | String c s' =>
      let r := rstrip_by space s' in
      if space c && is_empty r then EmptyString else String c r
  end.

(** [s.strip()] *)
Definition strip (s : string) : string := rstrip_by isspace (lstrip_by isspace s).

(** [s.replace(a, b)] for one-character [a] and [b]. *)
Fixpoint replace (a b : ascii) (s : string) : string :=
  match s with
  | EmptyString => EmptyString
  | String c s' => String (if Ascii.eqb c a then b else c) (replace a b s')
  end.

(** [s[:n]] *)
Fixpoint take (n : nat) (s : string) : string :=
  match n, s with
  | O, _ => EmptyString
  | _, EmptyString => EmptyString
  | S n', String c s' => String c (take n' s')
  end.

(** [pat in s] *)
Fixpoint contains (pat s : string) : bool :=
  String.prefix pat s ||
  match s with
  | EmptyString => false
  | String _ s' => contains pat s'
  end.

(** [c in s] for one character. *)
Fixpoint mem (c : ascii) (s : string) : bool :=
  match s with
  | EmptyString => false
  | String c' s' => Ascii.eqb c' c || mem c s'
  end.

(** [s.split(sep)] for a one-character separator: never the empty list. *)
Fixpoint split_from (sep : ascii) (cur : string) (s : string) : list string :=
  match s with
  | EmptyString => [cur]
  | String c s' =>
      if Ascii.eqb c sep then cur :: split_from sep EmptyString s'
      else split_from sep (cur +:+ String c EmptyString) s'
  end.

Definition split (sep : ascii) (s : string) : list string :=
  split_from sep EmptyString s.

(** Text-mode input, [open(path, 'r')] with the default [newline=None]:
    the sequences CR LF and CR alone are both read as LF. *)
Fixpoint universal_newlines (s : string) : string :=
  match s with
  | EmptyString => EmptyString
  | String c s' =>
      if Ascii.eqb c CR then
        match s' with
        | String c' s'' =>
            if Ascii.eqb c' LF then String LF (universal_newlines s'')
            else String LF (universal_newlines s')
        | EmptyString => String LF EmptyString
        end
      else String c (universal_newlines s')
  end.

(** Text-mode output, [open(path, 'w')]: LF is written as [os.linesep]. *)
Fixpoint write_newlines (linesep : string) (s : string) : string :=
  match s with
  | EmptyString => EmptyString
  | String c s' =>
      if Ascii.eqb c LF then linesep +:+ write_newlines linesep s'
      else String c (write_newlines linesep s')
  end.

(** [for line in f]: the decoded text cut after each LF; a last piece
    without LF is a line too, unless it is empty. *)
Fixpoint lines_from (cur : string) (s : string) : list string :=
  match s with
  | EmptyString => if is_empty cur then [] else [cur]
  | String c s' =>
      if Ascii.eqb c LF then (cur +:+ String LF EmptyString) :: lines_from EmptyString s'
      else lines_from (cur +:+ String c EmptyString) s'
  end.

Definition lines (s : string) : list string := lines_from EmptyString s.

(** [str(z)] for an integer. *)
Definition of_Z (z : Z) : string := NilZero.string_of_int (Z.to_int z).

(** *** [int(s)] on a string

    CPython skips white space at both ends, accepts one sign, then decimal
    digits in which single underscores may separate digits.  The white
    space of [int] is that of C below 127 and that of [str.isspace] above:
    the separators 28 to 31 are not part of it.  Interpreters that limit
    the length of integer literals refuse more than [limit] digits; the
    limit cannot be set below 640, and shorter literals are not checked. *)

Definition isspace_int (c : ascii) : bool :=
  let n := nat_of_ascii c in
  ((9 <=? n) && (n <=? 13) || (n =? 32) || (n =? 133) || (n =? 160))%nat.

Definition digits_check_threshold : nat := 640.

Definition digit_val (c : ascii) : option Z :=
  let n := nat_of_ascii c in
  if ((48 <=? n) && (n <=? 57))%nat then Some (Z.of_nat (n - 48)) else None.

Fixpoint parse_digits (s : string) (acc : Z) (after_digit : bool) : option Z :=
  match s with
  | EmptyString => if after_digit then Some acc else None
  | String c s' =>
      match digit_val c with
      | Some d => parse_digits s' (10 * acc + d) true
      | None =>
          if Ascii.eqb c "_"%char && after_digit then parse_digits s' acc false
          else None
      end
  end.

Fixpoint count_digits (s : string) : nat :=
  match s with
  | EmptyString => O
  | String c s' =>
      ((match digit_val c with Some _ => 1 | None => 0 end) + count_digits s')%nat
  end.

Definition within_limit (limit : option nat) (s : string) : bool :=
  match limit with
  | None => true
  | Some n => (count_digits s <=? Nat.max digits_check_threshold n)%nat
  end.

Definition to_Z (limit : option nat) (s : string) : option Z :=
  let t := rstrip_by isspace_int (lstrip_by isspace_int s) in
  if negb (within_limit limit t) then None
  else
    match t with
    | String "+"%char r => parse_digits r 0 false
    | String "-"%char r => Z.opp <$> parse_digits r 0 false
    | _ => parse_digits t 0 false
    end.

End Str.


(** ** Python values and exceptions *)

Set Warnings "-register-all".

(** A float is not-a-number, an infinity or the finite double [m * 2^e]. *)
Inductive pyfloat : Type :=
| FNan
| FInf (negative : bool)
| FFin (m e : Z).

(** The values [json.load] builds.  A [dict] keeps its items in insertion
    order; [json.load] leaves one item per key. *)
Inductive pyval : Type :=
| VNone
| VBool (b : bool)
| VInt (z : Z)
| VFloat (f : pyfloat)
| VStr (s : string)
| VList (l : list pyval)
| VDict (items : list (string * pyval)).

(** The exception classes that occur; all of them derive from
    [Exception].  [JSONDecodeError] and [UnicodeError] derive from
    [ValueError], [TimeoutExpired] is the one of [subprocess]. *)
Inductive exn : Type :=
| OSError
| ValueError
| JSONDecodeError
| UnicodeError
| TypeError
| AttributeError
| OverflowError
| RecursionError
| TimeoutExpired.

Inductive result (A : Type) : Type :=
| Ok (a : A)
| Raise (e : exn).

Arguments Ok {A} a.
Arguments Raise {A} e.

Module Py.

(** [except ValueError] *)
Definition is_ValueError (e : exn) : bool :=
  match e with
  | ValueError | JSONDecodeError | UnicodeError => true
  | _ => false
  end.

(** [except json.JSONDecodeError] *)
Definition is_JSONDecodeError (e : exn) : bool :=
  match e with
  | JSONDecodeError => true
  | _ => false
  end.

(** [bool(v)], the test of [if v] and [not v]. *)
Definition truthy (v : pyval) : bool :=
  match v with
  | VNone => false
  | VBool b => b
  | VInt z => negb (z =? 0)
  | VFloat (FFin m _) => negb (m =? 0)
  | VFloat _ => true
  | VStr s => negb (Str.is_empty s)
  | VList l => match l with [] => false | _ => true end
  | VDict items => match items with [] => false | _ => true end
  end.

(** [a or b] *)
Definition or_ (a b : pyval) : pyval := if truthy a then a else b.

Definition isinstance_dict (v : pyval) : bool :=
  match v with VDict _ => true | _ => false end.

Fixpoint lookup_item (k : string) (items : list (string * pyval)) : option pyval :=
  match items with
  | [] => None
  | (k', v) :: rest => if String.eqb k' k then Some v else lookup_item k rest
  end.

(** [d.get(k, default)]; only a [dict] has the method. *)
Definition get (d : pyval) (k : string) (default : pyval) : result pyval :=
  match d with
  | VDict items =>
      Ok (match lookup_item k items with Some v => v | None => default end)
  | _ => Raise AttributeError
  end.

(** [v == s] for a string [s]. *)
Definition eq_str (v : pyval) (s : string) : bool :=
  match v with VStr t => String.eqb t s | _ => false end.

(** Truncation toward zero of [m * 2^e]. *)
Definition trunc_float (m e : Z) : Z :=
  if 0 <=? e then m * 2 ^ e else Z.quot m (2 ^ (- e)).

(** [int(v)] *)
Definition int (limit : option nat) (v : pyval) : result Z :=
  match v with
  | VInt z => Ok z
  | VBool b => Ok (if b then 1 else 0)
  | VFloat FNan => Raise ValueError
  | VFloat (FInf _) => Raise OverflowError
  | VFloat (FFin m e) => Ok (trunc_float m e)
  | VStr s => match Str.to_Z limit s with Some z => Ok z | None => Raise ValueError end
  | VNone | VList _ | VDict _ => Raise TypeError
  end.

(** [str(v)], what an f-string puts for [{v}].  The text of floats, lists
    and dicts is left to [repr]. *)
Definition str (repr : pyval -> string) (v : pyval) : string :=
  match v with
  | VStr s => s
  | VInt z => Str.of_Z z
  | VBool true => "True"
  | VBool false => "False"
  | VNone => "None"
  | _ => repr v
  end.

End Py.

(** ** The operating system

    What the script asks of its platform and does not define itself.
    Everything here is fixed during one run. *)

Record proc : Type := { returncode : Z; stdout : string }.

Record OS : Type := {
  (** [platform.system() == 'Windows'] *)
  is_windows : bool;
  (** [tempfile.gettempdir()], the directory of the script and
      [os.path.expanduser('~')] *)
  TMPDIR : string;
  SCRIPT_DIR : string;
  home : string;
  (** [os.environ] *)
  environ : gmap string string;
  (** the interpreter's limit on the digits of an integer literal *)
  int_max_str_digits : option nat;
  (** [os.path] *)
  path_join : string -> string -> string;
  path_dirname : string -> string;
  path_basename : string -> string;
  path_realpath : string -> result string;
  (** [os.access(p, os.X_OK)], and [os.path.isdir] on a file descriptor *)
  access_x : string -> bool;
  fd_isdir : Z -> result bool;
  (** an error of [open(p, 'r')] or [open(p, 'w')] and of the transfer
      that follows: permissions, a full disk, undecodable bytes *)
  read_error : string -> option exn;
  write_error : string -> option exn;
  (** [json.loads], [json.dumps(v).encode()] and [repr] *)
  json_loads : string -> result pyval;
  json_dumps : pyval -> result string;
  repr : pyval -> string;
  (** [subprocess.run(args, capture_output=True, text=True, timeout=5)] *)
  subprocess_run : list string -> result proc;
  (** a Unix stream socket: create it, set the timeout and connect;
      [sendall]; [close] *)
  socket_connect : string -> result unit;
  socket_sendall : string -> string -> result unit;
  socket_close : string -> result unit;
  (** [open(p, 'wb')] and [write] on a named pipe *)
  pipe_write : string -> string -> result unit
}.

(** [os.linesep] *)
Definition linesep (os : OS) : string :=
  if is_windows os then String Str.CR (String Str.LF EmptyString)
  else String Str.LF EmptyString.

(** ** The world

    The state one run reads and changes: the file system (paths are
    opaque keys), the clock, and the trace of what the run did. *)

Inductive node : Type :=
| File (content : string) (mtime : Q)
| Dir
| Special.

Inductive event : Type :=
| CacheRead (path : string)
| CacheWrite (path : string) (content : pyval)
| Spawn (args : list string)
| Connect (path : string)
| SendAll (path : string) (data : string)
| PipeWrite (path : string) (data : string)
| Stdout (text : string).

Record world : Type := {
  fs : gmap string node;
  now : Q;
  trace : list event
}.

Definition log (ev : event) (w : world) : world :=
  {| fs := fs w; now := now w; trace := trace w ++ [ev] |}.

Definition set_fs (m : gmap string node) (w : world) : world :=
  {| fs := m; now := now w; trace := trace w |}.

Definition set_now (t : Q) (w : world) : world :=
  {| fs := fs w; now := t; trace := trace w |}.

(** ** State and exceptions

    A computation takes a world and gives a result, or an exception, and
    the world it leaves; what it did before raising stays done. *)

Definition M (A : Type) : Type := world -> result A * world.

Definition ret {A} (a : A) : M A := fun w => (Ok a, w).

Definition bind {A B} (m : M A) (k : A -> M B) : M B :=
  fun w =>
    match m w with
    | (Ok a, w') => k a w'
    | (Raise e, w') => (Raise e, w')
    end.

Definition lift {A} (r : result A) : M A := fun w => (r, w).

Definition emit (ev : event) : M unit := fun w => (Ok tt, log ev w).

(** [try: body except <classes>: handler], for the classes [catches]. *)
Definition try_except {A} (body : M A) (catches : exn -> bool) (handler : M A) : M A :=
  fun w =>
    match body w with
    | (Raise e, w') => if catches e then handler w' else (Raise e, w')
    | ok => ok
    end.

(** [except Exception] *)
Definition Exception (e : exn) : bool := true.

Notation "x <- m ;; k" := (bind m (fun x => k))
  (at level 100, m at next level, right associativity).
Notation "m ;;; k" := (bind m (fun _ => k))
  (at level 100, right associativity).

(** ** The script *)

Record GitContext : Type := {
  git_branch : string;
  git_worktree : string;
  git_repo_root : string
}.

Record Settings : Type := {
  enabled : bool;
  threshold : Z;
  bug_threshold : option Z
}.

Section Script.

Variable os : OS.

(** *** Files *)

Definition isfile (path : string) : M bool :=
  fun w => (Ok (match fs w !! path with Some (File _ _) => true | _ => false end), w).

(** [os.path.exists] *)
Definition path_exists (path : string) : M bool :=
  fun w => (Ok (match fs w !! path with Some _ => true | None => false end), w).

(** [os.path.isdir]: a [str] is a path, an [int] a file descriptor,
    anything else a [TypeError]. *)
Definition isdir (p : pyval) : M bool :=
  fun w =>
    match p with
    | VStr path => (Ok (match fs w !! path with Some Dir => true | _ => false end), w)
    | VInt fd => (fd_isdir os fd, w)
    | VBool b => (fd_isdir os (if b then 1 else 0), w)
    | _ => (Raise TypeError, w)
    end.

(** [os.fspath] *)
Definition fspath (p : pyval) : result string :=
  match p with
  | VStr path => Ok path
  | _ => Raise TypeError
  end.

(** [os.path.getmtime]; the script asks it of regular files only. *)
Definition getmtime (path : string) : M Q :=
  fun w =>
    match fs w !! path with
    | Some (File _ t) => (Ok t, w)
    | _ => (Raise OSError, w)
    end.

(** [time.time()] *)
Definition time : M Q := fun w => (Ok (now w), w).

(** [with open(path, 'r') as f: f.read()] *)
Definition read_text (path : string) : M string :=
  fun w =>
    match read_error os path with
    | Some e => (Raise e, w)
    | None =>
        match fs w !! path with
        | Some (File content _) => (Ok (Str.universal_newlines content), w)
        | _ => (Raise OSError, w)
        end
    end.

(** [with open(path, 'w') as f: f.write(content)].  Opening creates or
    empties the file; writing anything but a [str] is a [TypeError]. *)
Definition write_text (path : string) (content : pyval) : M unit :=
  fun w =>
    match write_error os path with
    | Some e => (Raise e, w)
    | None =>
        match fs w !! path with
        | Some Dir | Some Special => (Raise OSError, w)
        | _ =>
            match content with
            | VStr s =>
                (Ok tt,
                 set_fs (<[path := File (Str.write_newlines (linesep os) s) (now w)]> (fs w)) w)
            | _ =>
                (Raise TypeError,
                 set_fs (<[path := File EmptyString (now w)]> (fs w)) w)
            end
        end
    end.

(** *** Cache utilities *)

Definition cache_path (prefix : string) (key : pyval) : result string :=
  match key with
  | VStr k =>
      let safe_key :=
        Str.replace ":" "-" (Str.replace "\" "-" (Str.replace "/" "-" k)) in
      Ok (path_join os (TMPDIR os)
            ("jacques-" +:+ prefix +:+ "-" +:+ safe_key +:+ ".cache"))
  | _ => Raise AttributeError
  end.

Definition read_cache (path : string) (max_age_seconds : Q) : M (option string) :=
  emit (CacheRead path) ;;;
  try_except
    (is_file <- isfile path ;;
     if negb is_file then ret None
     else
       mtime <- getmtime path ;;
       t <- time ;;
       let age := (t - mtime)%Q in
       if Qlt_le_dec max_age_seconds age then ret None
       else
         text <- read_text path ;;
         ret (Some text))
    Exception
    (ret None).

Definition write_cache (path : string) (content : pyval) : M unit :=
  emit (CacheWrite path content) ;;;
  try_except (write_text path content) Exception (ret tt).

(** *** Git detection *)

Definition no_git : GitContext :=
  {| git_branch := ""; git_worktree := ""; git_repo_root := "" |}.

(** [lines[i] if len(lines) > i else ''] *)
Definition line_or_empty (lines : list string) (i : nat) : string :=
  nth i lines EmptyString.

Definition git_of_lines (lines : list string) : GitContext :=
  {| git_branch := line_or_empty lines 0;
     git_worktree := line_or_empty lines 1;
     git_repo_root := line_or_empty lines 2 |}.

(** [f"{branch}\n{worktree}\n{root}"] *)
Definition git_cache_text (g : GitContext) : string :=
  git_branch g +:+ String Str.LF (git_worktree g +:+ String Str.LF (git_repo_root g)).

Definition run (args : list string) : M proc :=
  emit (Spawn args) ;;; lift (subprocess_run os args).

(** The helper script, Unix only.  [Some] is the early [return result]. *)
Definition git_detect_sh (cp project_dir : string) : M (option GitContext) :=
  if negb (is_windows os) then
    let script_path := path_join os (SCRIPT_DIR os) "git-detect.sh" in
    is_file <- isfile script_path ;;
    if is_file && access_x os script_path then
      try_except
        (p <- run [script_path; project_dir] ;;
         if returncode p =? 0 then
           let result := git_of_lines (Str.split Str.LF (stdout p)) in
           write_cache cp (VStr (git_cache_text result)) ;;;
           ret (Some result)
         else ret None)
        Exception
        (ret None)
    else ret None
  else ret None.

(** The inline fallback.  [result] is filled field by field, so an
    exception of [realpath] leaves the branch already stored. *)
Definition git_inline (project_dir : string) : M GitContext :=
  try_except
    (p <- run ["git"; "-C"; project_dir; "rev-parse"; "--abbrev-ref"; "HEAD";
               "--git-common-dir"] ;;
     if returncode p =? 0 then
       match Str.split Str.LF (Str.strip (stdout p)) with
       | branch :: common :: _ =>
           let result :=
             {| git_branch := branch; git_worktree := ""; git_repo_root := "" |} in
           if String.eqb common ".git" then
             try_except
               (root <- lift (path_realpath os project_dir) ;;
                ret {| git_branch := branch; git_worktree := "";
                       git_repo_root := root |})
               Exception (ret result)
           else if negb (Str.is_empty common) then
             try_except
               (real <- lift (path_realpath os (path_join os project_dir common)) ;;
                ret {| git_branch := branch;
                       git_worktree := path_basename os project_dir;
                       git_repo_root := path_dirname os real |})
               Exception (ret result)
           else ret result
       | _ => ret no_git
       end
     else ret no_git)
    Exception
    (ret no_git).

Definition detect_git_info (project_dir : pyval) : M GitContext :=
  if negb (Py.truthy project_dir) then ret no_git
  else
    is_dir <- isdir project_dir ;;
    if negb is_dir then ret no_git
    else
      cp <- lift (cache_path "git" project_dir) ;;
      dir <- lift (fspath project_dir) ;;
      cached <- read_cache cp 60 ;;
      match cached with
      | Some text => ret (git_of_lines (Str.split Str.LF text))
      | None =>
          helped <- git_detect_sh cp dir ;;
          match helped with
          | Some result => ret result
          | None =>
              result <- git_inline dir ;;
              write_cache cp (VStr (git_cache_text result)) ;;;
              ret result
          end
      end.

(** *** Session title *)

(** The text [s] between double quotes. *)
Definition quoted (s : string) : string :=
  String Str.QUOTE (s +:+ String Str.QUOTE EmptyString).

(** The two spellings of a record tag that the scans look for, with and
    without a space after the colon. *)
Definition tag_compact (kind : string) : string :=
  quoted "type" +:+ ":" +:+ quoted kind.

Definition tag_spaced (kind : string) : string :=
  quoted "type" +:+ ": " +:+ quoted kind.

Definition tagged (kind line : string) : bool :=
  Str.contains (tag_compact kind) line || Str.contains (tag_spaced kind) line.

(** What [for entry in v] goes through. *)
Definition iterate (v : pyval) : result (list pyval) :=
  match v with
  | VList l => Ok l
  | VStr s => Ok (map (fun c => VStr (String c EmptyString)) (list_ascii_of_string s))
  | VDict items => Ok (map (fun kv => VStr (fst kv)) items)
  | _ => Raise TypeError
  end.

(** Source 1, the loop over the index entries: the summary of the first
    entry of this session, or the initial [''] when the loop ends. *)
Fixpoint index_title (entries : list pyval) (session_id : string) : result pyval :=
  match entries with
  | [] => Ok (VStr "")
  | entry :: rest =>
      match Py.get entry "sessionId" VNone with
      | Raise e => Raise e
      | Ok sid =>
          if Py.eq_str sid session_id then Py.get entry "summary" (VStr "")
          else index_title rest session_id
      end
  end.

(** Source 1: [sessions-index.json] beside the transcript.  The session
    id is known to be non-empty here. *)
Definition title_from_index (session_id : string) (transcript_path : pyval)
    : M pyval :=
  if Py.truthy transcript_path then
    tp <- lift (fspath transcript_path) ;;
    let transcript_dir := path_dirname os tp in
    let index_path := path_join os transcript_dir "sessions-index.json" in
    is_file <- isfile index_path ;;
    if is_file then
      try_except
        (text <- read_text index_path ;;
         index_data <- lift (json_loads os text) ;;
         entries <- lift (Py.get index_data "entries" (VList [])) ;;
         l <- lift (iterate entries) ;;
         lift (index_title l session_id))
        Exception
        (ret (VStr ""))
    else ret (VStr "")
  else ret (VStr "").

(** Source 2, the loop over the transcript lines.  [title] is the running
    candidate; a line that does not parse is passed over, any other
    exception leaves the loop with the candidate as it stands. *)
Fixpoint last_summary (lines : list string) (title : pyval) : pyval :=
  match lines with
  | [] => title
  | raw :: rest =>
      let line := Str.strip raw in
      if tagged "summary" line then
        match json_loads os line with
        | Raise e =>
            if Py.is_JSONDecodeError e then last_summary rest title else title
        | Ok entry =>
            match Py.get entry "summary" (VStr "") with
            | Raise _ => title
            | Ok s => last_summary rest (if Py.truthy s then s else title)
            end
        end
      else last_summary rest title
  end.

(** [content.strip().replace('\n', ' ')[:50] + '...'] *)
Definition truncate_title (content : string) : string :=
  Str.take 50 (Str.replace Str.LF " " (Str.strip content)) +:+ "...".

(** Source 3, the loop over the transcript lines up to its [break];
    [title] is what the variable holds when the loop assigns nothing. *)
Fixpoint first_user_message (lines : list string) (title : pyval) : pyval :=
  match lines with
  | [] => title
  | raw :: rest =>
      let line := Str.strip raw in
      if negb (tagged "user" line) then first_user_message rest title
      else
        match json_loads os line with
        | Raise e =>
            if Py.is_JSONDecodeError e then first_user_message rest title
            else title
        | Ok entry =>
            match Py.get entry "message" (VDict []) with
            | Raise _ => title
            | Ok msg =>
                let content :=
                  match msg with
                  | VDict _ =>
                      match Py.get msg "content" (VStr "") with
                      | Ok c => c
                      | Raise _ => VStr ""
                      end
                  | _ => VStr ""
                  end in
                match content with
                | VStr c =>
                    if Str.is_empty c then first_user_message rest title
                    else
                      let first_char := Str.take 1 (Str.strip c) in
                      if String.eqb first_char "<" || String.eqb first_char "["
                      then first_user_message rest title
                      else VStr (truncate_title c)
                | _ => first_user_message rest title
                end
            end
        end
  end.

(** [with open(transcript_path, 'r') as f: for line in f: ...] under
    [try ... except Exception: pass]; a failing read leaves [title]. *)
Definition scan_transcript (transcript_path : string) (title : pyval)
    (loop : list string -> pyval) : M pyval :=
  try_except
    (text <- read_text transcript_path ;;
     ret (loop (Str.lines text)))
    Exception
    (ret title).

(** Sources 2 and 3 share their guard and their reading of the file:
    [if not title and transcript_path and os.path.isfile(transcript_path)]. *)
Definition title_from_transcript (transcript_path title : pyval)
    (loop : list string -> pyval) : M pyval :=
  if negb (Py.truthy title) && Py.truthy transcript_path then
    tp <- lift (fspath transcript_path) ;;
    is_file <- isfile tp ;;
    if is_file then scan_transcript tp title loop else ret title
  else ret title.

Definition extract_session_title (session_id transcript_path : pyval) : M pyval :=
  if negb (Py.truthy session_id) then ret (VStr "")
  else
    cp <- lift (cache_path "title" session_id) ;;
    sid <- lift (fspath session_id) ;;
    cached <- read_cache cp 300 ;;
    match cached with
    | Some text => ret (VStr text)
    | None =>
        (* Source 1: sessions-index.json *)
        title <- title_from_index sid transcript_path ;;
        (* Source 2: last summary entry in transcript *)
        title <-
          title_from_transcript transcript_path title
            (fun lines => last_summary lines title) ;;
        (* Source 3: first real user message *)
        title <-
          title_from_transcript transcript_path title
            (fun lines => first_user_message lines title) ;;
        (* Cache the result *)
        (if Py.truthy title then write_cache cp title else ret tt) ;;;
        ret title
    end.

(** *** Auto-compact settings *)

Definition environ_get (name default : string) : string :=
  match environ os !! name with
  | Some v => v
  | None => default
  end.

Definition settings_cache_text (s : Settings) : string :=
  let enabled_str := if enabled s then "true" else "false" in
  let bug_str :=
    match bug_threshold s with
    | Some b => Str.of_Z b
    | None => "null"
    end in
  enabled_str +:+ "|" +:+ Str.of_Z (threshold s) +:+ "|" +:+ bug_str.

(** The cached triple, when the cache holds at least three fields.  Only
    the second field is converted under [try ... except ValueError]. *)
Definition settings_of_cache (settings : Settings) (cached : string)
    : M (option Settings) :=
  match Str.split "|" cached with
  | p0 :: p1 :: p2 :: _ =>
      let enabled' := String.eqb p0 "true" in
      threshold' <-
        try_except
          (lift (Py.int (int_max_str_digits os) (VStr p1)))
          Py.is_ValueError
          (ret (threshold settings)) ;;
      bug' <-
        (if negb (String.eqb p2 "null")
         then b <- lift (Py.int (int_max_str_digits os) (VStr p2)) ;; ret (Some b)
         else ret None) ;;
      ret (Some {| enabled := enabled'; threshold := threshold';
                   bug_threshold := bug' |})
  | _ => ret None
  end.

(** [ac is False] *)
Definition is_False (v : pyval) : bool :=
  match v with VBool false => true | _ => false end.

Definition settings_of_config (settings : Settings) : M Settings :=
  let claude_dir :=
    environ_get "CLAUDE_CONFIG_DIR" (path_join os (home os) ".claude") in
  let settings_path := path_join os claude_dir "settings.json" in
  is_file <- isfile settings_path ;;
  if is_file then
    try_except
      (text <- read_text settings_path ;;
       data <- lift (json_loads os text) ;;
       ac <- lift (Py.get data "autoCompact" VNone) ;;
       if is_False ac then
         ret {| enabled := false; threshold := threshold settings;
                bug_threshold := Some 78 |}
       else ret settings)
      Exception
      (ret settings)
  else ret settings.

Definition read_autocompact_settings : M Settings :=
  threshold0 <-
    lift (Py.int (int_max_str_digits os)
            (VStr (environ_get "CLAUDE_AUTOCOMPACT_PCT_OVERRIDE" "95"))) ;;
  let settings :=
    {| enabled := true; threshold := threshold0; bug_threshold := None |} in
  let cp := path_join os (TMPDIR os) "jacques-settings.cache" in
  cached <- read_cache cp 300 ;;
  hit <-
    match cached with
    | Some text => settings_of_cache settings text
    | None => ret None
    end ;;
  match hit with
  | Some settings' => ret settings'
  | None =>
      settings' <- settings_of_config settings ;;
      write_cache cp (VStr (settings_cache_text settings')) ;;;
      ret settings'
  end.

(** *** Terminal key *)

Definition build_terminal_key : string :=
  let iterm := environ_get "ITERM_SESSION_ID" "" in
  let kitty := environ_get "KITTY_WINDOW_ID" "" in
  let wezterm := environ_get "WEZTERM_PANE" "" in
  let wt := environ_get "WT_SESSION" "" in
  let term_session := environ_get "TERM_SESSION_ID" "" in
  if negb (Str.is_empty iterm) then "ITERM:" +:+ iterm
  else if negb (Str.is_empty kitty) then "KITTY:" +:+ kitty
  else if negb (Str.is_empty wezterm) then "WEZTERM:" +:+ wezterm
  else if negb (Str.is_empty wt) then "WT:" +:+ wt
  else if negb (Str.is_empty term_session) then "TERM:" +:+ term_session
  else "".

(** *** IPC send *)

Definition default_socket_path : string :=
  if is_windows os then "\\.\pipe\jacques" else "/tmp/jacques.sock".

Definition send_to_server (payload : pyval) : M bool :=
  let socket_path := environ_get "JACQUES_SOCKET_PATH" default_socket_path in
  try_except
    (encoded <- lift (json_dumps os payload) ;;
     let data := encoded +:+ String Str.LF EmptyString in
     if is_windows os then
       emit (PipeWrite socket_path data) ;;;
       lift (pipe_write os socket_path data) ;;;
       ret true
     else
       present <- path_exists socket_path ;;
       if negb present then ret false
       else
         emit (Connect socket_path) ;;;
         lift (socket_connect os socket_path) ;;;
         emit (SendAll socket_path data) ;;;
         lift (socket_sendall os socket_path data) ;;;
         lift (socket_close os socket_path) ;;;
         ret true)
    Exception
    (ret false).

(** *** Main *)

(** [int(time.time() * 1000)] *)
Definition millis (t : Q) : Z :=
  let ms := (t * 1000)%Q in Z.quot (Qnum ms) (Zpos (Qden ms)).

Definition json_of_option_Z (o : option Z) : pyval :=
  match o with
  | Some z => VInt z
  | None => VNone
  end.

(** The block of [main] that reads the fields of the event, in its
    order; a [get] on something that is no [dict] raises. *)
Record Fields : Type := {
  session_id : pyval;
  used_pct : pyval;
  remaining_pct : pyval;
  ctx_size : pyval;
  total_input : pyval;
  total_output : pyval;
  model : pyval;
  model_display : pyval;
  cwd : pyval;
  project_dir : pyval;
  transcript_path : pyval
}.

Definition rbind {A B} (r : result A) (k : A -> result B) : result B :=
  match r with
  | Ok a => k a
  | Raise e => Raise e
  end.

Notation "x <~ r ;; k" := (rbind r (fun x => k))
  (at level 100, r at next level, right associativity).

Definition extract_fields (input_data : pyval) : result Fields :=
  session_id <~ Py.get input_data "session_id" (VStr "") ;;
  ctx <~ Py.get input_data "context_window" (VDict []) ;;
  used_pct <~ Py.get ctx "used_percentage" (VInt 0) ;;
  remaining_pct <~ Py.get ctx "remaining_percentage" (VInt 100) ;;
  ctx_size <~ Py.get ctx "context_window_size" (VInt 0) ;;
  total_input <~ Py.get ctx "total_input_tokens" (VInt 0) ;;
  total_output <~ Py.get ctx "total_output_tokens" (VInt 0) ;;
  model_data <~ Py.get input_data "model" (VDict []) ;;
  model <~
    (if Py.isinstance_dict model_data
     then Py.get model_data "id" (VStr "unknown")
     else Ok (VStr "unknown")) ;;
  model_display <~
    (if Py.isinstance_dict model_data
     then Py.get model_data "display_name" (VStr "Unknown")
     else Ok (VStr "Unknown")) ;;
  workspace <~ Py.get input_data "workspace" (VDict []) ;;
  cwd <~
    (if Py.isinstance_dict workspace then
       current_dir <~ Py.get workspace "current_dir" (VStr "") ;;
       if Py.truthy current_dir then Ok current_dir
       else Py.get input_data "cwd" (VStr "")
     else Py.get input_data "cwd" (VStr "")) ;;
  project_dir <~
    (if Py.isinstance_dict workspace
     then Py.get workspace "project_dir" (VStr "")
     else Ok (VStr "")) ;;
  transcript_path <~ Py.get input_data "transcript_path" (VStr "") ;;
  Ok {| session_id := session_id; used_pct := used_pct;
        remaining_pct := remaining_pct; ctx_size := ctx_size;
        total_input := total_input; total_output := total_output;
        model := model; model_display := model_display; cwd := cwd;
        project_dir := project_dir; transcript_path := transcript_path |}.

Definition build_payload (f : Fields) (now_ms : Z) (ac : Settings)
    (terminal_key : string) (session_title : pyval) (git_info : GitContext)
    : pyval :=
  VDict
    [("event", VStr "context_update");
     ("session_id", session_id f);
     ("used_percentage", used_pct f);
     ("remaining_percentage", remaining_pct f);
     ("context_window_size", ctx_size f);
     ("total_input_tokens", total_input f);
     ("total_output_tokens", total_output f);
     ("model", model f);
     ("model_display_name", model_display f);
     ("cwd", cwd f);
     ("project_dir", project_dir f);
     ("timestamp", VInt now_ms);
     ("autocompact",
      VDict [("enabled", VBool (enabled ac));
             ("threshold", VInt (threshold ac));
             ("bug_threshold", json_of_option_Z (bug_threshold ac))]);
     ("terminal_key", VStr terminal_key);
     ("session_title", session_title);
     ("transcript_path", transcript_path f);
     ("git_branch", VStr (git_branch git_info));
     ("git_worktree", VStr (git_worktree git_info));
     ("git_repo_root", VStr (git_repo_root git_info))].

(** [git_info = detect_git_info(git_dir) if git_dir else {...}] *)
Definition git_step (f : Fields) : M GitContext :=
  let git_dir := Py.or_ (project_dir f) (cwd f) in
  if Py.truthy git_dir then detect_git_info git_dir else ret no_git.

(** [used_int = int(used_pct) if used_pct else 0] *)
Definition used_int_of (used_pct : pyval) : result Z :=
  if Py.truthy used_pct then Py.int (int_max_str_digits os) used_pct else Ok 0.

Definition main (stdin : string) : M unit :=
  (* Skip if running as subprocess or JACQUES_SKIP=1 *)
  if bool_decide (environ os !! "JACQUES_SUBPROCESS" = Some "1"%string) then ret tt
  else if bool_decide (environ os !! "JACQUES_SKIP" = Some "1"%string) then ret tt
  else
    let skip_file := path_join os (path_join os (home os) ".jacques") "skip" in
    skipped <- isfile skip_file ;;
    if skipped then ret tt
    else
      (* Read JSON from stdin *)
      match json_loads os stdin with
      | Raise _ => ret tt
      | Ok input_data =>
          if negb (Py.truthy input_data) then ret tt
          else
            (* Timestamp in milliseconds *)
            t <- time ;;
            let now_ms := millis t in
            (* Extract fields *)
            f <- lift (extract_fields input_data) ;;
            (* Git detection *)
            git_info <- git_step f ;;
            (* Session title *)
            session_title <- extract_session_title (session_id f) (transcript_path f) ;;
            (* Auto-compact settings *)
            ac <- read_autocompact_settings ;;
            (* If no session_id, just output a placeholder *)
            if negb (Py.truthy (session_id f)) then emit (Stdout "ctx:?%")
            else
              (* Terminal key *)
              let terminal_key := build_terminal_key in
              (* Build payload *)
              let payload :=
                build_payload f now_ms ac terminal_key session_title git_info in
              (* Send to server *)
              send_to_server payload ;;;
              (* Output status line *)
              used_int <- lift (used_int_of (used_pct f)) ;;
              let git_part :=
                if negb (Str.is_empty (git_branch git_info))
                then " @" +:+ git_branch git_info
                else "" in
              let ac_part :=
                if enabled ac then "ON@" +:+ Str.of_Z (threshold ac) +:+ "%"
                else "OFF" in
              emit (Stdout ("[" +:+ Py.str (repr os) (model_display f) +:+ "] ctx:"
                            +:+ Str.of_Z used_int +:+ "%" +:+ git_part
                            +:+ " [AC:" +:+ ac_part +:+ "]"))
      end.

End Script.

(** What a run wrote to standard output, in order. *)
Fixpoint stdout_of (tr : list event) : list string :=
  match tr with
  | [] => []
  | Stdout text :: rest => text :: stdout_of rest
  | _ :: rest => stdout_of rest
  end.

(** The transport events of a trace. *)
Definition is_transport (ev : event) : bool :=
  match ev with
  | Connect _ | SendAll _ _ | PipeWrite _ _ => true
  | _ => false
  end.

Definition is_cache_event (ev : event) : bool :=
  match ev with
  | CacheRead _ | CacheWrite _ _ => true
  | _ => false
  end.

(** ** A concrete platform

    A POSIX system for the examples: [/tmp] as temporary directory, no
    environment variable set, no [git] executable, no helper script, and a
    [json.loads] that knows the documents the examples use. *)

Module Demo.

(** [posixpath]: [(p[:i], p[i:])] for [i = p.rfind('/') + 1]. *)
Fixpoint split_last_slash (p : string) : string * string :=
  match p with
  | EmptyString => (EmptyString, EmptyString)
  | String c p' =>
      let (h, t) := split_last_slash p' in
      if Str.is_empty h then
        if Ascii.eqb c "/" then (String c EmptyString, t)
        else (EmptyString, String c t)
      else (String c h, t)
  end.

Fixpoint rstrip_slash (s : string) : string :=
  match s with
  | EmptyString => EmptyString
  | String c s' =>
      let r := rstrip_slash s' in
      if Ascii.eqb c "/" && Str.is_empty r then EmptyString else String c r
  end.

Definition dirname (p : string) : string :=
  let head := fst (split_last_slash p) in
  if Str.is_empty (rstrip_slash head) then head else rstrip_slash head.

Definition basename (p : string) : string := snd (split_last_slash p).

Fixpoint ends_with_slash (s : string) : bool :=
  match s with
  | EmptyString => false
  | String c EmptyString => Ascii.eqb c "/"
  | String _ s' => ends_with_slash s'
  end.

Definition join (a b : string) : string :=
  if String.prefix "/" b then b
  else if Str.is_empty a || ends_with_slash a then a +:+ b
  else a +:+ "/" +:+ b.

(** The documents. *)
Definition text_empty_object : string := "{}".

Definition text_blank_session : string :=
  "{" +:+ quoted "session_id" +:+ ": " +:+ quoted "" +:+ "}".

Definition doc_blank_session : pyval := VDict [("session_id", VStr "")].

Definition text_s1 : string :=
  "{" +:+ quoted "session_id" +:+ ": " +:+ quoted "s1" +:+ ", "
  +:+ quoted "context_window" +:+ ": {" +:+ quoted "used_percentage" +:+ ": 42}, "
  +:+ quoted "model" +:+ ": {" +:+ quoted "display_name" +:+ ": " +:+ quoted "Foo"
  +:+ "}}".

Definition doc_s1 : pyval :=
  VDict [("session_id", VStr "s1");
         ("context_window", VDict [("used_percentage", VInt 42)]);
         ("model", VDict [("display_name", VStr "Foo")])].

(** The same event in the directory [/repo], with 42.75 percent used. *)
Definition text_s1_repo : string :=
  "{" +:+ quoted "session_id" +:+ ": " +:+ quoted "s1" +:+ ", "
  +:+ quoted "context_window" +:+ ": {" +:+ quoted "used_percentage" +:+ ": 42.75}, "
  +:+ quoted "model" +:+ ": {" +:+ quoted "display_name" +:+ ": " +:+ quoted "Foo"
  +:+ "}, " +:+ quoted "cwd" +:+ ": " +:+ quoted "/repo" +:+ "}".

Definition doc_s1_repo : pyval :=
  VDict [("session_id", VStr "s1");
         ("context_window", VDict [("used_percentage", VFloat (FFin 171 (-2)))]);
         ("model", VDict [("display_name", VStr "Foo")]);
         ("cwd", VStr "/repo")].

Definition text_autocompact_off : string :=
  "{" +:+ quoted "autoCompact" +:+ ": false}".

Definition doc_autocompact_off : pyval := VDict [("autoCompact", VBool false)].

Definition text_index : string :=
  "{" +:+ quoted "entries" +:+ ": [{" +:+ quoted "sessionId" +:+ ": " +:+ quoted "s1"
  +:+ ", " +:+ quoted "summary" +:+ ": " +:+ quoted "A" +:+ "}]}".

Definition doc_index : pyval :=
  VDict [("entries", VList [VDict [("sessionId", VStr "s1"); ("summary", VStr "A")]])].

Definition text_summary (s : string) : string :=
  "{" +:+ quoted "type" +:+ ":" +:+ quoted "summary" +:+ ","
  +:+ quoted "summary" +:+ ":" +:+ quoted s +:+ "}".

Definition doc_summary (s : string) : pyval :=
  VDict [("type", VStr "summary"); ("summary", VStr s)].

Definition text_user (content : string) : string :=
  "{" +:+ quoted "type" +:+ ":" +:+ quoted "user" +:+ ","
  +:+ quoted "message" +:+ ":{" +:+ quoted "content" +:+ ":" +:+ quoted content
  +:+ "}}".

Definition doc_user (content : string) : pyval :=
  VDict [("type", VStr "user"); ("message", VDict [("content", VStr content)])].

(** Sixty letters, and a short greeting. *)
Definition long_message : string :=
  "abcdefghijklmnopqrstuvwxyzabcdefghijklmnopqrstuvwxyzabcdefgh".

Definition short_message : string := "hello world".

Definition docs : list (string * pyval) :=
  [(text_empty_object, VDict []);
   (text_blank_session, doc_blank_session);
   (text_s1, doc_s1);
   (text_s1_repo, doc_s1_repo);
   (text_autocompact_off, doc_autocompact_off);
   (text_index, doc_index);
   (text_summary "B0", doc_summary "B0");
   (text_summary "B", doc_summary "B");
   (text_user long_message, doc_user long_message);
   (text_user short_message, doc_user short_message)].

Fixpoint loads_from (table : list (string * pyval)) (text : string) : result pyval :=
  match table with
  | [] => Raise JSONDecodeError
  | (t, v) :: rest => if String.eqb t text then Ok v else loads_from rest text
  end.

(** [json.dumps] for values without floats and without characters that
    need escaping. *)
Fixpoint dumps (v : pyval) : string :=
  match v with
  | VNone => "null"
  | VBool true => "true"
  | VBool false => "false"
  | VInt z => Str.of_Z z
  | VFloat _ => "NaN"
  | VStr s => quoted s
  | VList l =>
      "[" +:+
      (fix items (l : list pyval) : string :=
         match l with
         | [] => ""
         | [x] => dumps x
         | x :: rest => dumps x +:+ ", " +:+ items rest
         end) l +:+ "]"
  | VDict kvs =>
      "{" +:+
      (fix items (l : list (string * pyval)) : string :=
         match l with
         | [] => ""
         | [(k, x)] => quoted k +:+ ": " +:+ dumps x
         | (k, x) :: rest => quoted k +:+ ": " +:+ dumps x +:+ ", " +:+ items rest
         end) kvs +:+ "}"
  end.

Definition os : OS := {|
  is_windows := false;
  TMPDIR := "/tmp";
  SCRIPT_DIR := "/opt/jacques/hooks";
  home := "/home/user";
  environ := ∅;
  int_max_str_digits := Some 4300%nat;
  path_join := join;
  path_dirname := dirname;
  path_basename := basename;
  path_realpath := fun p => Ok p;
  access_x := fun _ => false;
  fd_isdir := fun _ => Ok false;
  read_error := fun _ => None;
  write_error := fun _ => None;
  json_loads := loads_from docs;
  json_dumps := fun v => Ok (dumps v);
  repr := dumps;
  subprocess_run := fun _ => Raise OSError;
  socket_connect := fun _ => Raise OSError;
  socket_sendall := fun _ _ => Raise OSError;
  socket_close := fun _ => Ok tt;
  pipe_write := fun _ _ => Raise OSError
|}.

(** The same platform with other environment variables, or with a [git]
    that answers. *)
Definition with_environ (env : gmap string string) (o : OS) : OS := {|
  is_windows := is_windows o; TMPDIR := TMPDIR o; SCRIPT_DIR := SCRIPT_DIR o;
  home := home o; environ := env; int_max_str_digits := int_max_str_digits o;
  path_join := path_join o; path_dirname := path_dirname o;
  path_basename := path_basename o; path_realpath := path_realpath o;
  access_x := access_x o; fd_isdir := fd_isdir o; read_error := read_error o;
  write_error := write_error o; json_loads := json_loads o;
  json_dumps := json_dumps o; repr := repr o; subprocess_run := subprocess_run o;
  socket_connect := socket_connect o; socket_sendall := socket_sendall o;
  socket_close := socket_close o; pipe_write := pipe_write o
|}.

Definition with_subprocess (run : list string -> result proc) (o : OS) : OS := {|
  is_windows := is_windows o; TMPDIR := TMPDIR o; SCRIPT_DIR := SCRIPT_DIR o;
  home := home o; environ := environ o; int_max_str_digits := int_max_str_digits o;
  path_join := path_join o; path_dirname := path_dirname o;
  path_basename := path_basename o; path_realpath := path_realpath o;
  access_x := access_x o; fd_isdir := fd_isdir o; read_error := read_error o;
  write_error := write_error o; json_loads := json_loads o;
  json_dumps := json_dumps o; repr := repr o; subprocess_run := run;
  socket_connect := socket_connect o; socket_sendall := socket_sendall o;
  socket_close := socket_close o; pipe_write := pipe_write o
|}.

(** [git rev-parse --abbrev-ref HEAD --git-common-dir] in a plain
    checkout of the branch [main]. *)
Definition git_on_main (args : list string) : result proc :=
  match args with
  | "git"%string :: _ =>
      Ok {| returncode := 0;
            stdout := "main" +:+ String Str.LF (".git" +:+ String Str.LF EmptyString) |}
  | _ => Raise OSError
  end.

(** An empty disk at time 1000, and the same with a directory [/repo]. *)
Definition w0 : world := {| fs := ∅; now := 1000; trace := [] |}.

Definition w_repo : world := {| fs := {[ "/repo"%string := Dir ]}; now := 1000; trace := [] |}.

(** A disk that holds a settings cache written 100 seconds ago. *)
Definition w_settings_cache (text : string) : world :=
  {| fs := {[ "/tmp/jacques-settings.cache"%string := File text 900 ]};
     now := 1000; trace := [] |}.

(** A disk with the configuration file of the host. *)
Definition w_config (text : string) : world :=
  {| fs := {[ "/home/user/.claude/settings.json"%string := File text 0 ]};
     now := 1000; trace := [] |}.

(** The session [s1] with its transcript [/proj/s1.jsonl], without and
    with the index file beside it. *)
Definition transcript_of (lines : list string) : string :=
  fold_right (fun line rest => line +:+ String Str.LF rest) EmptyString lines.

Definition w_transcript (lines : list string) : world :=
  {| fs := {[ "/proj/s1.jsonl"%string := File (transcript_of lines) 0 ]};
     now := 1000; trace := [] |}.


(** The same platform as Windows sees it, or with an executable helper
    script. *)
Definition with_platform (windows : bool) (executable : string -> bool) (o : OS) : OS := {|
  is_windows := windows; TMPDIR := TMPDIR o; SCRIPT_DIR := SCRIPT_DIR o;
  home := home o; environ := environ o; int_max_str_digits := int_max_str_digits o;
  path_join := path_join o; path_dirname := path_dirname o;
  path_basename := path_basename o; path_realpath := path_realpath o;
  access_x := executable; fd_isdir := fd_isdir o; read_error := read_error o;
  write_error := write_error o; json_loads := json_loads o;
  json_dumps := json_dumps o; repr := repr o; subprocess_run := subprocess_run o;
  socket_connect := socket_connect o; socket_sendall := socket_sendall o;
  socket_close := socket_close o; pipe_write := pipe_write o
|}.

(** A server that listens: connecting, sending and closing succeed. *)
Definition with_server (o : OS) : OS := {|
  is_windows := is_windows o; TMPDIR := TMPDIR o; SCRIPT_DIR := SCRIPT_DIR o;
  home := home o; environ := environ o; int_max_str_digits := int_max_str_digits o;
  path_join := path_join o; path_dirname := path_dirname o;
  path_basename := path_basename o; path_realpath := path_realpath o;
  access_x := access_x o; fd_isdir := fd_isdir o; read_error := read_error o;
  write_error := write_error o; json_loads := json_loads o;
  json_dumps := json_dumps o; repr := repr o; subprocess_run := subprocess_run o;
  socket_connect := fun _ => Ok tt; socket_sendall := fun _ _ => Ok tt;
  socket_close := fun _ => Ok tt; pipe_write := fun _ _ => Ok tt
|}.

(** The helper script answering for a checkout of [main] in [/repo]. *)
Definition helper_on_main (args : list string) : result proc :=
  match args with
  | "/opt/jacques/hooks/git-detect.sh"%string :: _ =>
      Ok {| returncode := 0;
            stdout := "main" +:+ String Str.LF (String Str.LF "/repo") |}
  | _ => Raise OSError
  end.

Definition os_helper : OS :=
  with_platform false (fun _ => true) (with_subprocess helper_on_main os).

Definition os_windows : OS := with_platform true (fun _ => false) os.

Definition w_repo_helper : world :=
  {| fs := <[ "/opt/jacques/hooks/git-detect.sh"%string := File "#!/bin/sh" 0 ]>
             {[ "/repo"%string := Dir ]};
     now := 1000; trace := [] |}.

(** [/repo] with a git cache entry written 10 seconds ago. *)
Definition w_repo_cached (text : string) : world :=
  {| fs := <[ "/tmp/jacques-git--repo.cache"%string := File text 990 ]>
             {[ "/repo"%string := Dir ]};
     now := 1000; trace := [] |}.

(** A disk with the socket of the server. *)
Definition w_socket : world :=
  {| fs := {[ "/tmp/jacques.sock"%string := Special ]}; now := 1000; trace := [] |}.

(** A disk that holds a title cache of the session [s1] written 100
    seconds ago. *)
Definition w_title_cache (text : string) : world :=
  {| fs := {[ "/tmp/jacques-title-s1.cache"%string := File text 900 ]};
     now := 1000; trace := [] |}.

(** Documents that are well-formed JSON and not what the script expects:
    a summary that is a number, records wrapped in a list, an event that
    is a list, a session id that is a number, a context window that is a
    number, a transcript path that is a number, a percentage that is no
    number. *)
Definition text_summary_number : string :=
  "{" +:+ quoted "type" +:+ ":" +:+ quoted "summary" +:+ ","
  +:+ quoted "summary" +:+ ":7}".

Definition doc_summary_number : pyval :=
  VDict [("type", VStr "summary"); ("summary", VInt 7)].

Definition text_wrapped (kind : string) : string :=
  "[{" +:+ quoted "type" +:+ ":" +:+ quoted kind +:+ "}]".

Definition doc_wrapped (kind : string) : pyval :=
  VList [VDict [("type", VStr kind)]].

Definition text_list_event : string := "[1]".

Definition doc_list_event : pyval := VList [VInt 1].

Definition text_session_number : string :=
  "{" +:+ quoted "session_id" +:+ ": 7}".

Definition doc_session_number : pyval := VDict [("session_id", VInt 7)].

Definition text_window_number : string :=
  "{" +:+ quoted "session_id" +:+ ": " +:+ quoted "s1" +:+ ", "
  +:+ quoted "context_window" +:+ ": 5}".

Definition doc_window_number : pyval :=
  VDict [("session_id", VStr "s1"); ("context_window", VInt 5)].

Definition text_transcript_number : string :=
  "{" +:+ quoted "session_id" +:+ ": " +:+ quoted "s1" +:+ ", "
  +:+ quoted "transcript_path" +:+ ": 5}".

Definition doc_transcript_number : pyval :=
  VDict [("session_id", VStr "s1"); ("transcript_path", VInt 5)].

Definition text_used_nan : string :=
  "{" +:+ quoted "session_id" +:+ ": " +:+ quoted "s1" +:+ ", "
  +:+ quoted "context_window" +:+ ": {" +:+ quoted "used_percentage" +:+ ": NaN}}".

Definition doc_used_nan : pyval :=
  VDict [("session_id", VStr "s1");
         ("context_window", VDict [("used_percentage", VFloat FNan)])].

Definition odd_docs : list (string * pyval) :=
  [(text_summary_number, doc_summary_number);
   (text_wrapped "summary", doc_wrapped "summary");
   (text_wrapped "user", doc_wrapped "user");
   (text_list_event, doc_list_event);
   (text_session_number, doc_session_number);
   (text_window_number, doc_window_number);
   (text_transcript_number, doc_transcript_number);
   (text_used_nan, doc_used_nan)] ++ docs.

Definition with_loads (loads : string -> result pyval) (o : OS) : OS := {|
  is_windows := is_windows o; TMPDIR := TMPDIR o; SCRIPT_DIR := SCRIPT_DIR o;
  home := home o; environ := environ o; int_max_str_digits := int_max_str_digits o;
  path_join := path_join o; path_dirname := path_dirname o;
  path_basename := path_basename o; path_realpath := path_realpath o;
  access_x := access_x o; fd_isdir := fd_isdir o; read_error := read_error o;
  write_error := write_error o; json_loads := loads;
  json_dumps := json_dumps o; repr := repr o; subprocess_run := subprocess_run o;
  socket_connect := socket_connect o; socket_sendall := socket_sendall o;
  socket_close := socket_close o; pipe_write := pipe_write o
|}.

Definition os_odd : OS := with_loads (loads_from odd_docs) os.

End Demo.

(** ** Vocabulary of the statements *)


(** Nothing stands in the way of writing the file [path]. *)
Definition writable (os : OS) (w : world) (path : string) : Prop :=
  write_error os path = None /\
  fs w !! path <> Some Dir /\ fs w !! path <> Some Special.

(** What a cache read finds: the decoded text of a regular file that is
    not older than [ttl] and can be read. *)
Definition cache_lookup (os : OS) (path : string) (ttl : Q) (w : world)
    : option string :=
  match fs w !! path with
  | Some (File content mtime) =>
      if Qlt_le_dec ttl (now w - mtime)%Q then None
      else
        match read_error os path with
        | Some _ => None
        | None => Some (Str.universal_newlines content)
        end
  | _ => None
  end.

(** The paths that [read_autocompact_settings] computes. *)
Definition settings_cache_path (os : OS) : string :=
  path_join os (TMPDIR os) "jacques-settings.cache".

Definition settings_path (os : OS) : string :=
  path_join os
    (environ_get os "CLAUDE_CONFIG_DIR" (path_join os (home os) ".claude"))
    "settings.json".

(** The name of the environment override of the threshold. *)
Definition OVERRIDE : string := "CLAUDE_AUTOCOMPACT_PCT_OVERRIDE".

(** *** The transcript, in the words of the specification *)

(** [index_path] of [extract_session_title]. *)
Definition index_path (os : OS) (transcript_path : string) : string :=
  path_join os (path_dirname os transcript_path) "sessions-index.json".

(** The lines of the transcript, when it is a regular file that can be
    read. *)
Definition transcript_lines (os : OS) (transcript_path : string) (w : world)
    : option (list string) :=
  match fs w !! transcript_path with
  | Some (File content _) =>
      match read_error os transcript_path with
      | Some _ => None
      | None => Some (Str.lines (Str.universal_newlines content))
      end
  | _ => None
  end.

(** A line that a scan for records of [kind] passes without leaving its
    loop: it has no tag of that kind, or it does not parse, or it parses
    to a record. *)
Definition clean_line (os : OS) (kind raw : string) : bool :=
  let line := Str.strip raw in
  negb (tagged kind line) ||
  match json_loads os line with
  | Ok (VDict _) => true
  | Raise JSONDecodeError => true
  | _ => false
  end.

(** The summary of a line tagged as a summary record whose summary field
    is non-empty. *)
Definition summary_of_line (os : OS) (raw : string) : option pyval :=
  let line := Str.strip raw in
  if tagged "summary" line then
    match json_loads os line with
    | Ok (VDict items) =>
        match Py.lookup_item "summary" items with
        | Some s => if Py.truthy s then Some s else None
        | None => None
        end
    | _ => None
    end
  else None.


(** The message of a line tagged as a user record whose content is a
    plain string that does not begin, once trimmed, with [<] or [[]. *)
Definition user_message_of_line (os : OS) (raw : string) : option string :=
  let line := Str.strip raw in
  if tagged "user" line then
    match json_loads os line with
    | Ok (VDict items) =>
        match Py.lookup_item "message" items with
        | Some (VDict message) =>
            match Py.lookup_item "content" message with
            | Some (VStr content) =>
                match content, Str.strip content with
                | EmptyString, _ => None
                | _, String "<" _ => None
                | _, String "[" _ => None
                | _, _ => Some content
                end
            | _ => None
            end
        | _ => None
        end
    | _ => None
    end
  else None.



(** *** Traces *)

(** The events of the resolvers: cache accesses and subprocesses. *)
Definition is_resolver_event (ev : event) : bool :=
  match ev with
  | CacheRead _ | CacheWrite _ _ | Spawn _ => true
  | _ => false
  end.

(** A computation that adds to the trace only events that satisfy [P],
    however it ends. *)
Definition emits (P : event -> bool) {A} (m : M A) : Prop :=
  forall w, exists evs, trace (m w).2 = trace w ++ evs /\ forallb P evs = true.

Definition transport_events (tr : list event) : list event :=
  List.filter is_transport tr.

(** *** Running [main] *)

(** [skip_file] of [main]. *)
Definition skip_file (os : OS) : string :=
  path_join os (path_join os (home os) ".jacques") "skip".

(** None of the three skip conditions holds. *)
Definition runs (os : OS) (w : world) : Prop :=
  environ os !! "JACQUES_SUBPROCESS" <> Some "1"%string /\
  environ os !! "JACQUES_SKIP" <> Some "1"%string /\
  (forall c t, fs w !! skip_file os <> Some (File c t)).

(** A computation that returns from every world: no exception leaves it. *)
Definition returns {A} (m : M A) : Prop :=
  forall w, exists a w', m w = (Ok a, w').

(** *** Characters of a string *)

Definition is_digit (c : ascii) : bool :=
  match Str.digit_val c with Some _ => true | None => false end.

Fixpoint all_chars (p : ascii -> bool) (s : string) : bool :=
  match s with
  | EmptyString => true
  | String c s' => p c && all_chars p s'
  end.

(** *** Git detection *)

(** The command of the inline fallback and the path of the helper. *)
Definition git_args (project_dir : string) : list string :=
  ["git"; "-C"; project_dir; "rev-parse"; "--abbrev-ref"; "HEAD"; "--git-common-dir"].

Definition helper_path (os : OS) : string :=
  path_join os (SCRIPT_DIR os) "git-detect.sh".

(** The helper script cannot be used: the platform is Windows, or the
    script is no regular file, or it is not executable. *)
Definition helper_unavailable (os : OS) (w : world) : Prop :=
  is_windows os = true \/
  (forall c t, fs w !! helper_path os <> Some (File c t)) \/
  access_x os (helper_path os) = false.

(** No subprocess but [git] is started. *)
Definition spawns_only_git (ev : event) : bool :=
  match ev with
  | Spawn ("git"%string :: _) => true
  | Spawn _ => false
  | _ => true
  end.

(** A text without line feed and carriage return. *)
Definition one_line (s : string) : Prop :=
  Str.mem Str.LF s = false /\ Str.mem Str.CR s = false.

(** *** Lines a scan passes over *)

(** A line that a scan for records of [kind] ignores: it carries no tag
    of that kind, or it is tagged and does not parse. *)
Definition skipped_line (os : OS) (kind raw : string) : Prop :=
  tagged kind (Str.strip raw) = false \/
  json_loads os (Str.strip raw) = Raise JSONDecodeError.

(** *** The configuration file *)

(** The configuration file can be read, holds an object, and the
    [autoCompact] of the object is [false] itself. *)
Definition config_disables (os : OS) (w : world) : bool :=
  match fs w !! settings_path os with
  | Some (File content _) =>
      match read_error os (settings_path os) with
      | Some _ => false
      | None =>
          match json_loads os (Str.universal_newlines content) with
          | Ok (VDict items) =>
              match Py.lookup_item "autoCompact" items with
              | Some (VBool false) => true
              | _ => false
              end
          | _ => false
          end
      end
  | _ => false
  end.

(** A character of a decimal numeral. *)
Definition is_numeral_char (c : ascii) : bool := is_digit c || Ascii.eqb c "-".

(** *** The terminal key and the transport *)

(** The variables that identify a terminal, in the order in which they
    are tested, each with the prefix of its key. *)
Definition terminal_variables : list (string * string) :=
  [("ITERM_SESSION_ID", "ITERM"); ("KITTY_WINDOW_ID", "KITTY");
   ("WEZTERM_PANE", "WEZTERM"); ("WT_SESSION", "WT");
   ("TERM_SESSION_ID", "TERM")]%string.

(** The variable is set to a non-empty value. *)
Definition is_set (os : OS) (name : string) : bool :=
  negb (Str.is_empty (environ_get os name "")).

(** [socket_path] of [send_to_server]. *)
Definition socket_path (os : OS) : string :=
  environ_get os "JACQUES_SOCKET_PATH" (default_socket_path os).


(** The world with more events in its trace. *)
Definition logged (evs : list event) (w : world) : world :=
  {| fs := fs w; now := now w; trace := trace w ++ evs |}.
(** * Properties

    ** Strings *)

Example strip_ex : Str.strip "  a b  " = "a b".
Proof. reflexivity. Qed.

Example split_ex : Str.split "|"%char "true|95|null" = ["true"; "95"; "null"].
Proof. reflexivity. Qed.

Example split_empty_ex : Str.split "|"%char "" = [""%string].
Proof. reflexivity. Qed.

Example to_Z_ex :
  Str.to_Z None " +1_000 " = Some 1000 /\ Str.to_Z None "1__0" = None /\
  Str.to_Z None "abc" = None /\ Str.to_Z None "-07" = Some (-7) /\
  Str.to_Z (Some 3%nat) "1234" = Some 1234 /\
  Str.to_Z None (String "028" "12") = None /\
  Str.to_Z None (String "160" "12") = Some 12.
Proof. repeat split; reflexivity. Qed.

Example lines_ex :
  Str.lines (Str.universal_newlines
               (String "a" (String Str.CR (String Str.LF (String "b" EmptyString)))))
  = [String "a" (String Str.LF EmptyString); "b"%string].
Proof. reflexivity. Qed.

Lemma append_cons c (a b : string) : String c a +:+ b = String c (a +:+ b).
Proof. reflexivity. Qed.

Lemma append_nil (b : string) : EmptyString +:+ b = b.
Proof. reflexivity. Qed.

Lemma newline_round_trip os s :
  Str.mem Str.CR s = false ->
  Str.universal_newlines (Str.write_newlines (linesep os) s) = s.
Proof.
  unfold linesep. destruct (is_windows os);
    induction s as [|c s IH]; intros Hcr; try reflexivity;
    cbn [Str.mem] in Hcr; apply orb_false_iff in Hcr as [Hc Hs];
    specialize (IH Hs); cbn [Str.write_newlines];
    (destruct (Ascii.eqb c Str.LF) eqn:Hlf;
     [ apply Ascii.eqb_eq in Hlf; subst c;
       rewrite ?append_cons, ?append_nil; cbn [Str.universal_newlines];
       rewrite ?Ascii.eqb_refl, ?Hc; now rewrite IH
     | cbn [Str.universal_newlines]; rewrite Hc; now rewrite IH ]).
Qed.

Lemma take_length n s : String.length (Str.take n s) = Nat.min n (String.length s).
Proof.
  revert s. induction n as [|n IH]; intros [|c s]; cbn; try reflexivity.
  now rewrite IH.
Qed.


Lemma append_length (a b : string) :
  String.length (a +:+ b) = (String.length a + String.length b)%nat.
Proof.
  induction a as [|c a IH]; [reflexivity|].
  rewrite append_cons. cbn. now rewrite IH.
Qed.



Lemma truthy_str s : Py.truthy (VStr s) = negb (Str.is_empty s).
Proof. reflexivity. Qed.

Lemma is_empty_false s : s <> EmptyString -> Str.is_empty s = false.
Proof. destruct s; [congruence | reflexivity]. Qed.


(** ** The monad *)

(** Unfolds the plumbing of a computation and nothing else. *)
Ltac run_M :=
  cbv beta iota zeta delta
    [bind ret lift emit try_except Exception rbind
     isfile path_exists isdir fspath getmtime time read_text write_text];
  cbn [fs now trace log set_fs set_now negb fst snd].


Lemma bind_Ok {A B} (m : M A) (k : A -> M B) w a w' :
  m w = (Ok a, w') -> bind m k w = k a w'.
Proof. unfold bind. now intros ->. Qed.

Lemma bind_Raise {A B} (m : M A) (k : A -> M B) w e w' :
  m w = (Raise e, w') -> bind m k w = (Raise e, w').
Proof. unfold bind. now intros ->. Qed.

Lemma try_except_Ok {A} (body : M A) catches handler w a w' :
  body w = (Ok a, w') -> try_except body catches handler w = (Ok a, w').
Proof. unfold try_except. now intros ->. Qed.

(** Under [except Exception] with a handler that only returns, a block
    always returns. *)
Lemma try_except_Exception {A} (body : M A) (d : A) w :
  exists a w', try_except body Exception (ret d) w = (Ok a, w').
Proof.
  unfold try_except. destruct (body w) as [[a|e] w']; run_M; eauto.
Qed.

(** ** The cache store *)

Ltac run_with H := repeat (run_M; rewrite ?H).
Section CacheFacts.

Variable os : OS.

Lemma read_cache_eq path ttl w :
  read_cache os path ttl w
  = (Ok (cache_lookup os path ttl w), log (CacheRead path) w).
Proof.
  unfold read_cache, cache_lookup. run_M.
  destruct (fs w !! path) as [[c t| |]|] eqn:Hf; run_with Hf; try reflexivity.
  destruct (Qlt_le_dec _ _); run_with Hf; try reflexivity.
  destruct (read_error os path); reflexivity.
Qed.

Lemma cache_lookup_fresh path ttl w c t :
  fs w !! path = Some (File c t) ->
  (now w - t <= ttl)%Q ->
  read_error os path = None ->
  cache_lookup os path ttl w = Some (Str.universal_newlines c).
Proof.
  intros Hf Hage Hr. unfold cache_lookup. rewrite Hf, Hr.
  destruct (Qlt_le_dec ttl (now w - t)); [exfalso; lra | reflexivity].
Qed.

Lemma cache_lookup_stale path ttl w c t :
  fs w !! path = Some (File c t) ->
  (ttl < now w - t)%Q ->
  cache_lookup os path ttl w = None.
Proof.
  intros Hf Hage. unfold cache_lookup. rewrite Hf.
  destruct (Qlt_le_dec ttl (now w - t)); [reflexivity | exfalso; lra].
Qed.

(** Reading looks at the file and the clock only. *)
Lemma cache_lookup_frame path ttl w1 w2 :
  fs w1 !! path = fs w2 !! path -> now w1 = now w2 ->
  cache_lookup os path ttl w1 = cache_lookup os path ttl w2.
Proof. intros Hf Hn. unfold cache_lookup. now rewrite Hf, Hn. Qed.

Lemma write_cache_total path content w :
  exists m, write_cache os path content w
            = (Ok tt, set_fs m (log (CacheWrite path content) w)).
Proof.
  unfold write_cache. run_M.
  destruct (write_error os path); run_M; [exists (fs w); reflexivity|].
  destruct (fs w !! path) as [[c t| |]|] eqn:Hf; run_with Hf;
    try (exists (fs w); reflexivity);
    destruct content; run_M; eauto.
Qed.

Lemma write_cache_str path s w :
  writable os w path ->
  write_cache os path (VStr s) w
  = (Ok tt,
     set_fs (<[path := File (Str.write_newlines (linesep os) s) (now w)]> (fs w))
            (log (CacheWrite path (VStr s)) w)).
Proof.
  intros (Hw & Hd & Hs).
  unfold write_cache. run_M.
  rewrite Hw. destruct (fs w !! path) as [[c t| |]|] eqn:Hf; run_with Hf; congruence.
Qed.

(** Writing changes no other file, and neither the clock. *)
Lemma write_cache_frame path content w :
  now (write_cache os path content w).2 = now w /\
  trace (write_cache os path content w).2 = trace w ++ [CacheWrite path content] /\
  forall p, p <> path -> fs (write_cache os path content w).2 !! p = fs w !! p.
Proof.
  unfold write_cache. run_M.
  destruct (write_error os path); run_M; [auto|].
  destruct (fs w !! path) as [[c t| |]|] eqn:Hf; run_with Hf; auto;
    destruct content; run_M; repeat split; auto;
    intros p Hp; now rewrite lookup_insert_ne.
Qed.

End CacheFacts.

(** After a write that nothing prevents, a read finds the text as long as
    the file is not older than [ttl], and nothing afterwards. *)
Lemma written_then_read os path v w ttl t :
  Str.mem Str.CR v = false ->
  writable os w path ->
  read_error os path = None ->
  let w1 := set_now t (write_cache os path (VStr v) w).2 in
  ((t - now w <= ttl)%Q -> (read_cache os path ttl w1).1 = Ok (Some v)) /\
  ((ttl < t - now w)%Q -> (read_cache os path ttl w1).1 = Ok None).
Proof.
  intros Hcr Hw Hr w1. subst w1.
  rewrite (write_cache_str os path v w Hw), read_cache_eq. cbn [fst snd].
  split; intros Hage.
  - erewrite cache_lookup_fresh; [| cbn; apply lookup_insert_eq | cbn; lra | exact Hr].
    now rewrite newline_round_trip.
  - erewrite cache_lookup_stale; [reflexivity | cbn; apply lookup_insert_eq | cbn; lra].
Qed.




(** ** Event transport *)

Section Transport.
Variable os : OS.

(** C5: for every payload the send returns delivered or not delivered
    and no exception leaves it; on a POSIX platform, when the socket path
    does not exist, it returns not delivered and the world is unchanged:
    no connection was attempted. *)
Theorem send_to_server_boundary payload w :
  (exists delivered w', send_to_server os payload w = (Ok delivered, w')) /\
  (is_windows os = false ->
   fs w !! environ_get os "JACQUES_SOCKET_PATH" (default_socket_path os) = None ->
   send_to_server os payload w = (Ok false, w)).
Proof.
  split.
  - apply try_except_Exception.
  - intros Hposix Habsent. unfold send_to_server. rewrite Hposix. run_M.
    destruct (json_dumps os payload) as [data|e]; run_M; [|reflexivity].
    rewrite Habsent. reflexivity.
Qed.
End Transport.


Lemma send_to_server_boundary_witness :
  send_to_server Demo.os (VDict []) Demo.w0 = (Ok false, Demo.w0).
Proof.
  apply (proj2 (send_to_server_boundary Demo.os (VDict []) Demo.w0)); reflexivity.
Defined.

(** ** Git context *)

Section Git.
Variable os : OS.

Lemma git_inline_total dir w :
  exists g args, git_inline os dir w = (Ok g, log (Spawn args) w).
Proof.
  unfold git_inline, run. run_M.
  destruct (subprocess_run os _) as [[rc out]|e]; run_M; eauto.
  cbn [returncode stdout].
  destruct (rc =? 0); run_M; eauto.
  destruct (Str.split Str.LF (Str.strip out)) as [|branch [|common rest]]; run_M; eauto.
  destruct (String.eqb common ".git").
  - destruct (path_realpath os dir); run_M; eauto.
  - destruct (negb (Str.is_empty common)); run_M; eauto.
    destruct (path_realpath os _); run_M; eauto.
Qed.

Lemma git_detect_sh_cases cp dir w :
  (exists evs, git_detect_sh os cp dir w
               = (Ok None, {| fs := fs w; now := now w; trace := trace w ++ evs |})
               /\ Forall (fun ev => is_cache_event ev = false) evs)
  \/
  (exists g args,
      git_detect_sh os cp dir w
      = (Ok (Some g),
         (write_cache os cp (VStr (git_cache_text g)) (log (Spawn args) w)).2)).
Proof.
  unfold git_detect_sh.
  destruct (negb (is_windows os)); run_M.
  2:{ left. exists []. rewrite app_nil_r. destruct w; split; [reflexivity|constructor]. }
  destruct (_ && _); run_M.
  2:{ left. exists []. rewrite app_nil_r. destruct w; split; [reflexivity|constructor]. }
  unfold run. run_M.
  destruct (subprocess_run os _) as [[rc out]|e]; run_M.
  2:{ left. eexists [_]. split; [reflexivity|]. repeat constructor. }
  cbn [returncode stdout]. destruct (rc =? 0); run_M.
  2:{ left. eexists [_]. split; [reflexivity|]. repeat constructor. }
  right.
  exists (git_of_lines (Str.split Str.LF out)),
         [path_join os (SCRIPT_DIR os) "git-detect.sh"; dir].
  destruct (write_cache_total os cp (VStr (git_cache_text
     (git_of_lines (Str.split Str.LF out)))) (log (Spawn [path_join os (SCRIPT_DIR os) "git-detect.sh"; dir]) w)) as [m Hm].
  rewrite Hm. reflexivity.
Qed.

Lemma writable_frame w1 w2 path :
  fs w1 !! path = fs w2 !! path -> writable os w1 path -> writable os w2 path.
Proof. unfold writable. now intros ->. Qed.

End Git.


(** ** Auto-compact settings *)

Section Settings.
Variable os : OS.

Lemma small_literal_within_limit limit s :
  (Str.count_digits s <= Str.digits_check_threshold)%nat ->
  Str.within_limit limit s = true.
Proof.
  intros Hs. destruct limit as [n|]; [|reflexivity].
  cbn [Str.within_limit]. apply Nat.leb_le. lia.
Qed.

Lemma int_95 limit : Py.int limit (VStr "95") = Ok 95.
Proof.
  cbn [Py.int]. unfold Str.to_Z.
  change (Str.rstrip_by Str.isspace_int (Str.lstrip_by Str.isspace_int "95"))
    with "95"%string.
  rewrite small_literal_within_limit; [reflexivity|].
  vm_compute. lia.
Qed.

Lemma settings_of_config_total settings w :
  exists s, settings_of_config os settings w = (Ok s, w).
Proof.
  unfold settings_of_config. run_M.
  destruct (fs w !! _) as [[c t| |]|] eqn:Hf; run_with Hf; eauto.
  destruct (read_error os _); run_M; eauto.
  destruct (json_loads os _) as [data|e]; run_M; eauto.
  destruct (Py.get data _ _) as [ac|e]; run_M; eauto.
  destruct (is_False ac); run_M; eauto.
Qed.

Lemma settings_of_config_absent settings w :
  (forall c t, fs w !! settings_path os <> Some (File c t)) ->
  settings_of_config os settings w = (Ok settings, w).
Proof.
  intros Hf. unfold settings_of_config. fold (settings_path os). run_M.
  destruct (fs w !! settings_path os) as [[c t| |]|] eqn:Hp; run_with Hp; try reflexivity.
  now destruct (Hf c t).
Qed.

Lemma settings_of_config_off settings w c t items :
  fs w !! settings_path os = Some (File c t) ->
  read_error os (settings_path os) = None ->
  json_loads os (Str.universal_newlines c) = Ok (VDict items) ->
  Py.lookup_item "autoCompact" items = Some (VBool false) ->
  settings_of_config os settings w
  = (Ok {| enabled := false; threshold := threshold settings;
           bug_threshold := Some 78 |}, w).
Proof.
  intros Hf Hr Hj Hac. unfold settings_of_config. fold (settings_path os).
  run_with Hf. rewrite Hr. run_with Hf. rewrite Hj. run_M.
  cbn [Py.get]. rewrite Hac. reflexivity.
Qed.

(** On a cache miss the resolver takes the configuration file into
    account and writes the triple back. *)
Lemma read_autocompact_settings_miss w th :
  Py.int (int_max_str_digits os) (VStr (environ_get os OVERRIDE "95")) = Ok th ->
  cache_lookup os (settings_cache_path os) 300 w = None ->
  let settings := {| enabled := true; threshold := th; bug_threshold := None |} in
  let w1 := log (CacheRead (settings_cache_path os)) w in
  read_autocompact_settings os w
  = ((settings_of_config os settings w1).1,
     (write_cache os (settings_cache_path os)
        (VStr (settings_cache_text
                 match (settings_of_config os settings w1).1 with
                 | Ok s => s
                 | Raise _ => settings
                 end)) w1).2).
Proof.
  intros Hth Hmiss settings w1.
  unfold read_autocompact_settings. fold OVERRIDE (settings_cache_path os).
  rewrite Hth. run_M. rewrite read_cache_eq, Hmiss. run_M.
  destruct (settings_of_config_total settings w1) as [s Hs].
  fold settings w1. rewrite Hs. cbn [fst].
  destruct (write_cache_total os (settings_cache_path os)
              (VStr (settings_cache_text s)) w1) as [m Hm].
  rewrite Hm. reflexivity.
Qed.

(** The defaults: no override in the environment, no configuration file. *)
Lemma read_autocompact_settings_default w :
  environ os !! OVERRIDE = None ->
  cache_lookup os (settings_cache_path os) 300 w = None ->
  (forall c t, fs w !! settings_path os <> Some (File c t)) ->
  (read_autocompact_settings os w).1
  = Ok {| enabled := true; threshold := 95; bug_threshold := None |}.
Proof.
  intros Henv Hmiss Hf.
  rewrite (read_autocompact_settings_miss w 95); [| | exact Hmiss].
  - cbn [fst]. now rewrite settings_of_config_absent.
  - unfold environ_get. rewrite Henv. apply int_95.
Qed.

(** A configuration file whose [autoCompact] is [false]. *)
Lemma read_autocompact_settings_off w th c t items :
  Py.int (int_max_str_digits os) (VStr (environ_get os OVERRIDE "95")) = Ok th ->
  cache_lookup os (settings_cache_path os) 300 w = None ->
  fs w !! settings_path os = Some (File c t) ->
  read_error os (settings_path os) = None ->
  json_loads os (Str.universal_newlines c) = Ok (VDict items) ->
  Py.lookup_item "autoCompact" items = Some (VBool false) ->
  (read_autocompact_settings os w).1
  = Ok {| enabled := false; threshold := th; bug_threshold := Some 78 |}.
Proof.
  intros Hth Hmiss Hf Hr Hj Hac.
  rewrite (read_autocompact_settings_miss w th Hth Hmiss). cbn [fst].
  now rewrite (settings_of_config_off _ _ c t items).
Qed.

(** C6: on a cache miss the defaults and the configuration file are as the
    two lemmas above say, but an override that [int] cannot convert does
    not leave the threshold at 95: the conversion is made outside any
    [try], and the [ValueError] leaves the resolver before it looks at the
    cache. *)
Theorem read_autocompact_settings_override_unparsable w s :
  environ os !! OVERRIDE = Some s ->
  Str.to_Z (int_max_str_digits os) s = None ->
  read_autocompact_settings os w = (Raise ValueError, w).
Proof.
  intros Henv Hs. unfold read_autocompact_settings. fold OVERRIDE.
  unfold environ_get. rewrite Henv. cbn [Py.int]. rewrite Hs. reflexivity.
Qed.

(** C2: a cached string of three fields or more whose third field is
    neither [null] nor an integer makes the resolver raise [ValueError]:
    only the conversion of the second field is guarded. *)
Theorem read_autocompact_settings_bad_third_field w th text p0 p1 p2 rest :
  Py.int (int_max_str_digits os) (VStr (environ_get os OVERRIDE "95")) = Ok th ->
  cache_lookup os (settings_cache_path os) 300 w = Some text ->
  Str.split "|" text = p0 :: p1 :: p2 :: rest ->
  p2 <> "null"%string ->
  Str.to_Z (int_max_str_digits os) p2 = None ->
  read_autocompact_settings os w
  = (Raise ValueError, log (CacheRead (settings_cache_path os)) w).
Proof.
  intros Hth Hhit Hsplit Hnull Hbad.
  unfold read_autocompact_settings. fold OVERRIDE (settings_cache_path os).
  rewrite Hth. run_M. rewrite read_cache_eq, Hhit. run_M.
  unfold settings_of_cache. rewrite Hsplit. run_M.
  assert (Hneq : String.eqb p2 "null" = false) by now apply String.eqb_neq.
  rewrite Hneq. cbn [negb Py.int]. rewrite Hbad.
  destruct (Str.to_Z (int_max_str_digits os) p1); reflexivity.
Qed.

(** What the cached triple gives when its third field is [null] or an
    integer: the first field is compared with [true], the second falls
    back to the default when it is no integer. *)
Lemma read_autocompact_settings_hit w th text p0 p1 p2 rest bug :
  Py.int (int_max_str_digits os) (VStr (environ_get os OVERRIDE "95")) = Ok th ->
  cache_lookup os (settings_cache_path os) 300 w = Some text ->
  Str.split "|" text = p0 :: p1 :: p2 :: rest ->
  (if String.eqb p2 "null" then None
   else Some (Str.to_Z (int_max_str_digits os) p2)) = (Some <$> bug) ->
  read_autocompact_settings os w
  = (Ok {| enabled := String.eqb p0 "true";
           threshold := match Str.to_Z (int_max_str_digits os) p1 with
                        | Some z => z
                        | None => th
                        end;
           bug_threshold := bug |},
     log (CacheRead (settings_cache_path os)) w).
Proof.
  intros Hth Hhit Hsplit Hbug.
  unfold read_autocompact_settings. fold OVERRIDE (settings_cache_path os).
  rewrite Hth. run_M. rewrite read_cache_eq, Hhit. run_M.
  unfold settings_of_cache. rewrite Hsplit. run_M. cbn [Py.int].
  destruct (String.eqb p2 "null"); cbn [negb].
  - destruct bug; [discriminate|].
    destruct (Str.to_Z (int_max_str_digits os) p1); reflexivity.
  - destruct bug as [b|]; [|discriminate]. injection Hbug as ->.
    destruct (Str.to_Z (int_max_str_digits os) p1); reflexivity.
Qed.
End Settings.

Lemma read_autocompact_settings_override_unparsable_witness :
  read_autocompact_settings
    (Demo.with_environ {[ OVERRIDE := "abc"%string ]} Demo.os) Demo.w0
  = (Raise ValueError, Demo.w0).
Proof.
  apply (read_autocompact_settings_override_unparsable
           (Demo.with_environ {[ OVERRIDE := "abc"%string ]} Demo.os) Demo.w0 "abc");
    reflexivity.
Defined.

Lemma read_autocompact_settings_bad_third_field_witness :
  read_autocompact_settings Demo.os (Demo.w_settings_cache "true|95|abc")
  = (Raise ValueError,
     log (CacheRead (settings_cache_path Demo.os)) (Demo.w_settings_cache "true|95|abc")).
Proof.
  apply (read_autocompact_settings_bad_third_field Demo.os
           (Demo.w_settings_cache "true|95|abc") 95 "true|95|abc" "true" "95" "abc" []).
  - reflexivity.
  - reflexivity.
  - reflexivity.
  - discriminate.
  - reflexivity.
Defined.

(** The other fields of a cached triple: a second field that is no
    integer leaves the default, a first field other than [true] is
    [False]. *)
Example read_autocompact_settings_hit_ex :
  (read_autocompact_settings Demo.os (Demo.w_settings_cache "yes|abc|78")).1
  = Ok {| enabled := false; threshold := 95; bug_threshold := Some 78 |}.
Proof. reflexivity. Qed.

Example read_autocompact_settings_default_ex :
  (read_autocompact_settings Demo.os Demo.w0).1
  = Ok {| enabled := true; threshold := 95; bug_threshold := None |}.
Proof. reflexivity. Qed.

Example read_autocompact_settings_off_ex :
  (read_autocompact_settings Demo.os (Demo.w_config Demo.text_autocompact_off)).1
  = Ok {| enabled := false; threshold := 95; bug_threshold := Some 78 |}.
Proof. reflexivity. Qed.


(** ** Session title *)

Section Title.
Variable os : OS.



(** One turn of the loop of source 2. *)
Lemma last_summary_cons raw rest title :
  last_summary os (raw :: rest) title
  = if clean_line os "summary" raw
    then last_summary os rest (default title (summary_of_line os raw))
    else title.
Proof.
  unfold clean_line, summary_of_line. cbn [last_summary].
  destruct (tagged "summary" (Str.strip raw)); cbn [negb orb]; [|reflexivity].
  destruct (json_loads os (Str.strip raw)) as [entry|e].
  - destruct entry; try reflexivity. cbn [Py.get].
    destruct (Py.lookup_item "summary" items) as [s|]; [|reflexivity].
    now destruct (Py.truthy s).
  - now destruct e.
Qed.


Lemma first_char_not_marker c :
  (String.eqb (Str.take 1 (Str.strip c)) "<" || String.eqb (Str.take 1 (Str.strip c)) "[")
  = match Str.strip c with
    | String "<" _ | String "[" _ => true
    | _ => false
    end.
Proof.
  destruct (Str.strip c) as [|a s]; [reflexivity|].
  cbn [Str.take]. 
  destruct (Ascii.eqb a "<") eqn:H1.
  - apply Ascii.eqb_eq in H1. subst a. reflexivity.
  - destruct (Ascii.eqb a "[") eqn:H2.
    + apply Ascii.eqb_eq in H2. subst a. reflexivity.
    + assert (E1 : String.eqb (String a "") "<" = false).
      { apply String.eqb_neq. intros [= ->]. now rewrite Ascii.eqb_refl in H1. }
      assert (E2 : String.eqb (String a "") "[" = false).
      { apply String.eqb_neq. intros [= ->]. now rewrite Ascii.eqb_refl in H2. }
      rewrite E1, E2. cbn [orb].
      destruct a as [[] [] [] [] [] [] [] []]; try reflexivity; discriminate.
Qed.

(** One turn of the loop of source 3. *)
Lemma first_user_message_cons raw rest title :
  first_user_message os (raw :: rest) title
  = match user_message_of_line os raw with
    | Some c => VStr (Str.take 50 (Str.replace Str.LF " " (Str.strip c)) +:+ "...")
    | None =>
        if clean_line os "user" raw then first_user_message os rest title
        else title
    end.
Proof.
  unfold clean_line, user_message_of_line. cbn [first_user_message].
  destruct (tagged "user" (Str.strip raw)); cbn [negb orb]; [|reflexivity].
  destruct (json_loads os (Str.strip raw)) as [entry|e].
  - destruct entry; try reflexivity. cbn [Py.get].
    destruct (Py.lookup_item "message" items) as [msg|]; [|reflexivity].
    destruct msg; try reflexivity. cbn [Py.get].
    destruct (Py.lookup_item "content" items0) as [content|]; [|reflexivity].
    destruct content as [| | | |c| |]; try reflexivity.
    destruct c as [|a c']; [reflexivity|]. cbn [Str.is_empty].
    rewrite first_char_not_marker.
    destruct (Str.strip (String a c')) as [|b s']; [reflexivity|].
    destruct (Ascii.eqb b "<") eqn:H1.
    { apply Ascii.eqb_eq in H1. subst b. reflexivity. }
    destruct (Ascii.eqb b "[") eqn:H2.
    { apply Ascii.eqb_eq in H2. subst b. reflexivity. }
    destruct b as [[] [] [] [] [] [] [] []]; try reflexivity; discriminate.
  - now destruct e.
Qed.



Lemma title_from_index_total sid tp w :
  exists t, title_from_index os sid (VStr tp) w = (Ok t, w).
Proof.
  unfold title_from_index. destruct (Py.truthy (VStr tp)); [|eauto]. run_M.
  destruct (fs w !! _) as [[c t| |]|] eqn:Hf; run_with Hf; eauto.
  destruct (read_error os _); run_M; eauto.
  destruct (json_loads os _) as [data|e]; run_M; eauto.
  destruct (Py.get data _ _) as [entries|e]; run_M; eauto.
  destruct (iterate entries) as [l|e]; run_M; eauto.
  destruct (index_title l sid); run_M; eauto.
Qed.

Lemma title_from_index_absent sid tp w :
  (forall c t, fs w !! index_path os tp <> Some (File c t)) ->
  title_from_index os sid (VStr tp) w = (Ok (VStr ""), w).
Proof.
  intros Hf. unfold title_from_index. destruct (Py.truthy (VStr tp)); [|reflexivity].
  fold (index_path os tp). run_M. fold (index_path os tp).
  destruct (fs w !! index_path os tp) as [[c t| |]|] eqn:Hp; run_with Hp;
    try reflexivity.
  now destruct (Hf c t).
Qed.


(** One pass over the transcript: nothing happens to the world, and the
    title changes only when it was empty and the file could be read. *)
Lemma title_from_transcript_eq tp title loop w :
  tp <> EmptyString ->
  title_from_transcript os (VStr tp) title loop w
  = (Ok (if Py.truthy title then title
         else match transcript_lines os tp w with
              | Some ls => loop ls
              | None => title
              end), w).
Proof.
  intros Htp. unfold title_from_transcript, scan_transcript, transcript_lines.
  destruct (Py.truthy title); cbn [negb andb]; [reflexivity|].
  rewrite truthy_str, (is_empty_false tp Htp). cbn [negb]. run_M.
  destruct (fs w !! tp) as [[c t| |]|] eqn:Hf; run_with Hf; try reflexivity.
  destruct (read_error os tp); reflexivity.
Qed.

(** The resolver on a cache miss: the three sources in their order, each
    tried while the title is still empty, then the cache write of a
    non-empty title. *)
Lemma extract_session_title_miss sid tp w cp t1 :
  sid <> EmptyString ->
  tp <> EmptyString ->
  cache_path os "title" (VStr sid) = Ok cp ->
  cache_lookup os cp 300 w = None ->
  let w1 := log (CacheRead cp) w in
  title_from_index os sid (VStr tp) w1 = (Ok t1, w1) ->
  let t2 :=
    if Py.truthy t1 then t1
    else match transcript_lines os tp w with
         | Some ls => last_summary os ls t1
         | None => t1
         end in
  let t3 :=
    if Py.truthy t2 then t2
    else match transcript_lines os tp w with
         | Some ls => first_user_message os ls t2
         | None => t2
         end in
  extract_session_title os (VStr sid) (VStr tp) w
  = (Ok t3, if Py.truthy t3 then (write_cache os cp t3 w1).2 else w1).
Proof.
  intros Hsid Htp Hcp Hmiss w1 Hidx t2 t3.
  unfold extract_session_title.
  rewrite truthy_str, (is_empty_false sid Hsid). cbn [negb]. rewrite Hcp.
  cbv beta iota zeta delta [bind lift fspath].
  rewrite read_cache_eq, Hmiss. fold w1. rewrite Hidx.
  rewrite !(title_from_transcript_eq tp) by exact Htp.
  change (transcript_lines os tp w1) with (transcript_lines os tp w).
  fold t2. fold t3.
  destruct (Py.truthy t3); [|reflexivity].
  destruct (write_cache_total os cp t3 w1) as [m Hm]. rewrite Hm. reflexivity.
Qed.



(** Whatever the third source assigns is fifty characters at most of a
    user message, and the ellipsis. *)
Lemma first_user_message_shape lines title :
  first_user_message os lines title = title \/
  exists raw c,
    In raw lines /\ user_message_of_line os raw = Some c /\
    first_user_message os lines title
    = VStr (Str.take 50 (Str.replace Str.LF " " (Str.strip c)) +:+ "...").
Proof.
  induction lines as [|raw rest IH]; [now left|].
  rewrite first_user_message_cons.
  destruct (user_message_of_line os raw) as [c|] eqn:Hc.
  - right. exists raw, c. split; [now left | now split].
  - destruct (clean_line os "user" raw); [|now left].
    destruct IH as [IH | (raw' & c & Hin & Hc' & IH)]; [now left|].
    right. exists raw', c. split; [now right | now split].
Qed.






End Title.





Example short_first_message_title :
  (extract_session_title Demo.os (VStr "s1") (VStr "/proj/s1.jsonl")
     (Demo.w_transcript [Demo.text_user Demo.short_message])).1
  = Ok (VStr "hello world...").
Proof. reflexivity. Qed.


(** ** Traces *)

Section Emits.
Variable P : event -> bool.

Lemma emits_ret {A} (a : A) : emits P (ret a).
Proof. intros w. exists []. now rewrite app_nil_r. Qed.

Lemma emits_lift {A} (r : result A) : emits P (lift r).
Proof. intros w. exists []. now rewrite app_nil_r. Qed.

Lemma emits_emit ev : P ev = true -> emits P (emit ev).
Proof. intros Hev w. exists [ev]. cbn. now rewrite Hev. Qed.

Lemma emits_bind {A B} (m : M A) (k : A -> M B) :
  emits P m -> (forall a, emits P (k a)) -> emits P (bind m k).
Proof.
  intros Hm Hk w. unfold bind. destruct (Hm w) as (evs1 & Ht1 & H1).
  destruct (m w) as [[a|e] w1]; cbn [snd] in *.
  - destruct (Hk a w1) as (evs2 & Ht2 & H2). exists (evs1 ++ evs2).
    rewrite Ht2, Ht1, app_assoc, forallb_app, H1, H2. now split.
  - now exists evs1.
Qed.

Lemma emits_try_except {A} (body handler : M A) catches :
  emits P body -> emits P handler -> emits P (try_except body catches handler).
Proof.
  intros Hb Hh w. unfold try_except. destruct (Hb w) as (evs1 & Ht1 & H1).
  destruct (body w) as [[a|e] w1]; cbn [snd] in *.
  - now exists evs1.
  - destruct (catches e); [|now exists evs1].
    destruct (Hh w1) as (evs2 & Ht2 & H2). exists (evs1 ++ evs2).
    rewrite Ht2, Ht1, app_assoc, forallb_app, H1, H2. now split.
Qed.

(** A computation that leaves the world as it is. *)
Lemma emits_pure {A} (m : M A) : (forall w, (m w).2 = w) -> emits P m.
Proof. intros Hm w. exists []. now rewrite Hm, app_nil_r. Qed.
End Emits.

Section Resolvers.
Variable os : OS.

Lemma emits_isfile P path : emits P (isfile path).
Proof. now apply emits_pure. Qed.

Lemma emits_path_exists P path : emits P (path_exists path).
Proof. now apply emits_pure. Qed.

Lemma emits_time P : emits P time.
Proof. now apply emits_pure. Qed.

Lemma emits_isdir P v : emits P (isdir os v).
Proof. apply emits_pure. intros w. now destruct v. Qed.

Lemma emits_read_text P path : emits P (read_text os path).
Proof.
  apply emits_pure. intros w. unfold read_text.
  destruct (read_error os path); [reflexivity|]. now destruct (fs w !! path) as [[]|].
Qed.

Lemma emits_read_cache P path ttl :
  P (CacheRead path) = true -> emits P (read_cache os path ttl).
Proof.
  intros HP w. rewrite read_cache_eq. exists [CacheRead path]. cbn. now rewrite HP.
Qed.

Lemma emits_write_cache P path content :
  P (CacheWrite path content) = true -> emits P (write_cache os path content).
Proof.
  intros HP w. destruct (write_cache_frame os path content w) as (_ & Htr & _).
  exists [CacheWrite path content]. cbn. now rewrite HP.
Qed.

Lemma emits_run P args : P (Spawn args) = true -> emits P (run os args).
Proof.
  intros HP. unfold run. apply emits_bind; [now apply emits_emit|].
  intros _. apply emits_lift.
Qed.

(** Goes through a computation built from the pieces above. *)
Ltac emits_step :=
  first
    [ apply emits_ret | apply emits_lift
    | apply emits_isfile | apply emits_path_exists | apply emits_time
    | apply emits_isdir | apply emits_read_text
    | apply emits_read_cache; reflexivity
    | apply emits_write_cache; reflexivity
    | apply emits_run; reflexivity
    | apply emits_emit; reflexivity
    | apply emits_bind; [|intros ?]
    | apply emits_try_except
    | match goal with
      | |- emits _ (if ?b then _ else _) => destruct b
      | |- emits _ (match ?x with _ => _ end) => destruct x
      | |- emits _ (let x := _ in _) => cbv zeta
      end ].

Lemma emits_detect_git_info project_dir :
  emits is_resolver_event (detect_git_info os project_dir).
Proof.
  unfold detect_git_info, git_detect_sh, git_inline. repeat emits_step.
Qed.

Lemma emits_extract_session_title session_id transcript_path :
  emits is_resolver_event (extract_session_title os session_id transcript_path).
Proof.
  unfold extract_session_title, title_from_index, title_from_transcript,
    scan_transcript.
  repeat emits_step.
Qed.

Lemma emits_read_autocompact_settings :
  emits is_resolver_event (read_autocompact_settings os).
Proof.
  unfold read_autocompact_settings, settings_of_cache, settings_of_config.
  repeat emits_step.
Qed.

Lemma emits_git_step f : emits is_resolver_event (git_step os f).
Proof.
  unfold git_step. destruct (Py.truthy _); [apply emits_detect_git_info | apply emits_ret].
Qed.

Lemma emits_send_to_server payload : emits is_transport (send_to_server os payload).
Proof. unfold send_to_server. repeat emits_step. Qed.
End Resolvers.

(** ** Resolvers that return *)

Section Returns.
Variable os : OS.

Lemma returns_ret {A} (a : A) : returns (ret a).
Proof. intros w. now exists a, w. Qed.

Lemma returns_lift_Ok {A} (a : A) : returns (lift (Ok a)).
Proof. intros w. now exists a, w. Qed.

Lemma returns_bind {A B} (m : M A) (k : A -> M B) :
  returns m -> (forall a, returns (k a)) -> returns (bind m k).
Proof.
  intros Hm Hk w. destruct (Hm w) as (a & w1 & H1). unfold bind. rewrite H1.
  apply Hk.
Qed.

(** [try ... except Exception] with a handler that returns. *)
Lemma returns_try_except {A} (body handler : M A) :
  returns handler -> returns (try_except body Exception handler).
Proof.
  intros Hh w. unfold try_except. destruct (body w) as [[a|e] w1]; [now exists a, w1|].
  apply Hh.
Qed.

Lemma returns_isfile path : returns (isfile path).
Proof. intros w. unfold isfile. eauto. Qed.

Lemma returns_isdir_str path : returns (isdir os (VStr path)).
Proof. intros w. unfold isdir. eauto. Qed.

Lemma returns_read_cache path ttl : returns (read_cache os path ttl).
Proof. intros w. rewrite read_cache_eq. eauto. Qed.

Lemma returns_write_cache path content : returns (write_cache os path content).
Proof.
  intros w. destruct (write_cache_total os path content w) as [m Hm]. rewrite Hm. eauto.
Qed.

Ltac returns_step :=
  first
    [ apply returns_ret | apply returns_lift_Ok | apply returns_isfile
    | apply returns_isdir_str | apply returns_read_cache | apply returns_write_cache
    | apply returns_try_except
    | apply returns_bind; [|intros ?]
    | match goal with
      | |- returns (if ?b then _ else _) => destruct b
      | |- returns (match ?x with _ => _ end) => destruct x
      end ].

(** The git resolver returns for every path that is a string. *)
Lemma returns_detect_git_info dir : returns (detect_git_info os (VStr dir)).
Proof.
  unfold detect_git_info, git_detect_sh, git_inline, cache_path, fspath.
  repeat returns_step.
Qed.

(** The title resolver returns for every session id and transcript path
    that are strings. *)
Lemma returns_extract_session_title sid tp :
  returns (extract_session_title os (VStr sid) (VStr tp)).
Proof.
  unfold extract_session_title, title_from_index, title_from_transcript,
    scan_transcript, cache_path, fspath.
  repeat returns_step.
Qed.

(** The send returns for every payload. *)
Lemma returns_send_to_server payload : returns (send_to_server os payload).
Proof. unfold send_to_server. apply returns_try_except, returns_ret. Qed.

(** The settings resolver returns when the override is unset or an
    integer and the cache is missed. *)
Lemma returns_read_autocompact_settings_miss w th :
  Py.int (int_max_str_digits os) (VStr (environ_get os OVERRIDE "95")) = Ok th ->
  cache_lookup os (settings_cache_path os) 300 w = None ->
  exists ac w', read_autocompact_settings os w = (Ok ac, w').
Proof.
  intros Hth Hmiss. rewrite (read_autocompact_settings_miss os w th Hth Hmiss).
  destruct (settings_of_config_total os
              {| enabled := true; threshold := th; bug_threshold := None |}
              (log (CacheRead (settings_cache_path os)) w)) as [s Hs].
  rewrite Hs. eauto.
Qed.

(** [int] on the numbers of a JSON document: an integer is kept, a finite
    float is truncated toward zero. *)
Lemma used_int_of_number :
  (forall z, used_int_of os (VInt z) = Ok z) /\
  (forall m e, used_int_of os (VFloat (FFin m e))
               = Ok (if m =? 0 then 0 else Py.trunc_float m e)).
Proof.
  split.
  - intros z. unfold used_int_of. cbn [Py.truthy Py.int].
    destruct (Z.eqb_spec z 0) as [->|]; reflexivity.
  - intros m e. unfold used_int_of. cbn [Py.truthy Py.int].
    now destruct (m =? 0).
Qed.
End Returns.

Example trunc_float_ex : Py.trunc_float 171 (-2) = 42 /\ Py.trunc_float (-171) (-2) = -42.
Proof. split; reflexivity. Qed.

(** ** The orchestrator *)

Lemma stdout_of_app tr1 tr2 : stdout_of (tr1 ++ tr2) = stdout_of tr1 ++ stdout_of tr2.
Proof.
  induction tr1 as [|ev tr1 IH]; [reflexivity|].
  cbn [app stdout_of]. destruct ev; rewrite ?IH; reflexivity.
Qed.

Lemma stdout_of_resolver_events evs :
  forallb is_resolver_event evs = true -> stdout_of evs = [].
Proof.
  induction evs as [|ev evs IH]; [reflexivity|]. cbn [forallb stdout_of].
  intros [Hev Hevs]%andb_true_iff. destruct ev; try discriminate; now apply IH.
Qed.

Lemma stdout_of_transport_events evs :
  forallb is_transport evs = true -> stdout_of evs = [].
Proof.
  induction evs as [|ev evs IH]; [reflexivity|]. cbn [forallb stdout_of].
  intros [Hev Hevs]%andb_true_iff. destruct ev; try discriminate; now apply IH.
Qed.

Lemma transport_events_app tr1 tr2 :
  transport_events (tr1 ++ tr2) = transport_events tr1 ++ transport_events tr2.
Proof. apply List.filter_app. Qed.

Lemma no_transport_in_resolver_events evs :
  forallb is_resolver_event evs = true -> transport_events evs = [].
Proof.
  induction evs as [|ev evs IH]; [reflexivity|]. cbn [forallb].
  intros [Hev Hevs]%andb_true_iff. unfold transport_events in *. cbn [List.filter].
  rewrite (IH Hevs). destruct ev; try discriminate; reflexivity.
Qed.

Lemma rbind_Ok {A B} (r : result A) (k : A -> result B) b :
  rbind r k = Ok b -> exists a, r = Ok a /\ k a = Ok b.
Proof. destruct r as [a|e]; [eauto | discriminate]. Qed.

Lemma extract_fields_session_id input f :
  extract_fields input = Ok f ->
  exists items,
    input = VDict items /\
    session_id f = default (VStr "") (Py.lookup_item "session_id" items).
Proof.
  unfold extract_fields. intros H.
  destruct input; try discriminate. exists items. split; [reflexivity|].
  cbn [Py.get] in H.
  repeat (apply rbind_Ok in H as (? & ? & H)).
  injection H as <-. cbn [session_id].
  match goal with
  | E : Ok _ = Ok ?x |- ?x = _ => injection E as <-
  end.
  now destruct (Py.lookup_item "session_id" items).
Qed.


Section Main.
Variable os : OS.


(** [main] up to the point where the resolvers have returned. *)
Lemma main_after_resolvers stdin input f w g w1 title w2 ac w3 :
  runs os w ->
  json_loads os stdin = Ok input ->
  Py.truthy input = true ->
  extract_fields input = Ok f ->
  git_step os f w = (Ok g, w1) ->
  extract_session_title os (session_id f) (transcript_path f) w1 = (Ok title, w2) ->
  read_autocompact_settings os w2 = (Ok ac, w3) ->
  main os stdin w
  = (if negb (Py.truthy (session_id f)) then emit (Stdout "ctx:?%")
     else
       send_to_server os
         (build_payload f (millis (now w)) ac (build_terminal_key os) title g) ;;;
       used_int <- lift (used_int_of os (used_pct f)) ;;
       emit (Stdout ("[" +:+ Py.str (repr os) (model_display f) +:+ "] ctx:"
                     +:+ Str.of_Z used_int +:+ "%"
                     +:+ (if negb (Str.is_empty (git_branch g))
                          then " @" +:+ git_branch g else "")
                     +:+ " [AC:"
                     +:+ (if enabled ac
                          then "ON@" +:+ Str.of_Z (threshold ac) +:+ "%"
                          else "OFF")
                     +:+ "]"))) w3.
Proof.
  intros (Hsub & Hskip & Hfile) Hjson Htruthy Hfields Hgit Htitle Hac.
  unfold main. rewrite !bool_decide_eq_false_2 by assumption.
  fold (skip_file os). run_M.
  destruct (fs w !! skip_file os) as [[c t| |]|] eqn:Hf; try (now destruct (Hfile c t));
    rewrite Hjson, Htruthy; run_M; rewrite Hfields, Hgit, Htitle, Hac; reflexivity.
Qed.

(** C1, as amended: for every non-empty JSON object on standard input
    that has no [session_id] field or an empty one, when no skip condition
    holds, the fields can be read and the git and settings resolvers
    return, the title resolver does nothing, no transport send is
    attempted, and standard output receives exactly [ctx:?%]. *)
Theorem main_without_session_id stdin items f w g w1 ac w2 :
  runs os w ->
  json_loads os stdin = Ok (VDict items) ->
  items <> [] ->
  match Py.lookup_item "session_id" items with
  | Some v => Py.truthy v = false
  | None => True
  end ->
  extract_fields (VDict items) = Ok f ->
  git_step os f w = (Ok g, w1) ->
  read_autocompact_settings os w1 = (Ok ac, w2) ->
  extract_session_title os (session_id f) (transcript_path f) w1 = (Ok (VStr ""), w1) /\
  main os stdin w = (Ok tt, log (Stdout "ctx:?%") w2) /\
  stdout_of (trace (log (Stdout "ctx:?%") w2)) = stdout_of (trace w) ++ ["ctx:?%"%string] /\
  transport_events (trace (log (Stdout "ctx:?%") w2)) = transport_events (trace w).
Proof.
  intros Hruns Hjson Hne Hsid Hfields Hgit Hac.
  destruct (extract_fields_session_id _ _ Hfields) as (items' & [= <-] & Hf).
  assert (Hfalsy : Py.truthy (session_id f) = false).
  { rewrite Hf. now destruct (Py.lookup_item "session_id" items). }
  assert (Htitle : extract_session_title os (session_id f) (transcript_path f) w1
                   = (Ok (VStr ""), w1)).
  { unfold extract_session_title. now rewrite Hfalsy. }
  assert (Htruthy : Py.truthy (VDict items) = true) by now destruct items.
  split; [exact Htitle|]. split.
  - rewrite (main_after_resolvers stdin (VDict items) f w g w1 (VStr "") w1 ac w2)
      by assumption.
    now rewrite Hfalsy.
  - destruct (emits_git_step os f w) as (evs1 & Ht1 & H1).
    destruct (emits_read_autocompact_settings os w1) as (evs2 & Ht2 & H2).
    rewrite Hgit in Ht1. rewrite Hac in Ht2. cbn [snd] in Ht1, Ht2.
    cbn [trace log]. rewrite Ht2, Ht1. split.
    + rewrite !stdout_of_app, (stdout_of_resolver_events evs1 H1),
        (stdout_of_resolver_events evs2 H2), !app_nil_r. reflexivity.
    + rewrite !transport_events_app, (no_transport_in_resolver_events evs1 H1),
        (no_transport_in_resolver_events evs2 H2), !app_nil_r. reflexivity.
Qed.

(** C4, as amended: for every input with a non-empty [session_id], when no
    skip condition holds, the fields can be read, the resolvers return
    and the used percentage converts to an integer, standard output
    receives exactly one line, whatever the send did:
    [[<model display name>] ctx:<int>%], then a space, [@] and the branch
    when the branch is not empty, then a space and [[AC:ON@<threshold>%]]
    or [[AC:OFF]]; the integer is [int(used_percentage)], the percentage
    truncated toward zero. *)
Theorem main_status_line stdin input f w g w1 title w2 ac w3 used :
  runs os w ->
  json_loads os stdin = Ok input ->
  extract_fields input = Ok f ->
  Py.truthy (session_id f) = true ->
  git_step os f w = (Ok g, w1) ->
  extract_session_title os (session_id f) (transcript_path f) w1 = (Ok title, w2) ->
  read_autocompact_settings os w2 = (Ok ac, w3) ->
  used_int_of os (used_pct f) = Ok used ->
  exists w',
    main os stdin w = (Ok tt, w') /\
    stdout_of (trace w')
    = stdout_of (trace w)
      ++ ["[" +:+ Py.str (repr os) (model_display f) +:+ "] ctx:"
          +:+ Str.of_Z used +:+ "%"
          +:+ (if Str.is_empty (git_branch g) then "" else " @" +:+ git_branch g)
          +:+ " [AC:"
          +:+ (if enabled ac then "ON@" +:+ Str.of_Z (threshold ac) +:+ "%" else "OFF")
          +:+ "]"].
Proof.
  intros Hruns Hjson Hfields Hsid Hgit Htitle Hac Hused.
  destruct (extract_fields_session_id _ _ Hfields) as (items & -> & Hf).
  assert (Htruthy : Py.truthy (VDict items) = true).
  { destruct items; [|reflexivity]. rewrite Hf in Hsid. discriminate. }
  rewrite (main_after_resolvers stdin (VDict items) f w g w1 title w2 ac w3)
    by assumption.
  rewrite Hsid. cbn [negb].
  set (payload := build_payload _ _ _ _ _ _).
  destruct (emits_git_step os f w) as (evs1 & Ht1 & H1).
  destruct (emits_extract_session_title os (session_id f) (transcript_path f) w1)
    as (evs2 & Ht2 & H2).
  destruct (emits_read_autocompact_settings os w2) as (evs3 & Ht3 & H3).
  destruct (emits_send_to_server os payload w3) as (evs4 & Ht4 & H4).
  destruct (returns_send_to_server os payload w3) as (delivered & w4 & Hsend).
  rewrite Hgit in Ht1. rewrite Htitle in Ht2. rewrite Hac in Ht3. rewrite Hsend in Ht4.
  cbn [snd] in Ht1, Ht2, Ht3, Ht4.
  unfold bind at 1. rewrite Hsend. unfold bind, lift. rewrite Hused. unfold emit.
  eexists. split; [reflexivity|].
  cbn [trace log]. rewrite Ht4, Ht3, Ht2, Ht1, !stdout_of_app.
  rewrite (stdout_of_resolver_events evs1 H1), (stdout_of_resolver_events evs2 H2),
    (stdout_of_resolver_events evs3 H3), (stdout_of_transport_events evs4 H4),
    !app_nil_r.
  cbn [stdout_of]. now destruct (Str.is_empty (git_branch g)).
Qed.
End Main.

Lemma main_without_session_id_witness :
  extract_session_title Demo.os (VStr "") (VStr "") Demo.w0 = (Ok (VStr ""), Demo.w0) /\
  main Demo.os Demo.text_blank_session Demo.w0
  = (Ok tt, log (Stdout "ctx:?%") (read_autocompact_settings Demo.os Demo.w0).2) /\
  stdout_of (trace (log (Stdout "ctx:?%") (read_autocompact_settings Demo.os Demo.w0).2))
  = stdout_of (trace Demo.w0) ++ ["ctx:?%"%string] /\
  transport_events
    (trace (log (Stdout "ctx:?%") (read_autocompact_settings Demo.os Demo.w0).2))
  = transport_events (trace Demo.w0).
Proof.
  apply (main_without_session_id Demo.os Demo.text_blank_session
           [("session_id", VStr "")]
           {| session_id := VStr ""; used_pct := VInt 0; remaining_pct := VInt 100;
              ctx_size := VInt 0; total_input := VInt 0; total_output := VInt 0;
              model := VStr "unknown"; model_display := VStr "Unknown";
              cwd := VStr ""; project_dir := VStr ""; transcript_path := VStr "" |}
           Demo.w0 no_git Demo.w0
           {| enabled := true; threshold := 95; bug_threshold := None |}).
  - repeat split; vm_compute; discriminate.
  - reflexivity.
  - discriminate.
  - reflexivity.
  - reflexivity.
  - reflexivity.
  - reflexivity.
Defined.

(** C1, the claim as stated fails: the input [{}] is an empty object, for
    which [main] returns before it writes anything; and for an input with
    an empty session id the settings resolver has run and written its
    cache before the placeholder is printed. *)
Lemma empty_object_prints_nothing :
  json_loads Demo.os Demo.text_empty_object = Ok (VDict []) /\
  main Demo.os Demo.text_empty_object Demo.w0 = (Ok tt, Demo.w0) /\
  stdout_of (trace (main Demo.os Demo.text_empty_object Demo.w0).2) <> ["ctx:?%"%string] /\
  trace (main Demo.os Demo.text_blank_session Demo.w0).2
  = [CacheRead "/tmp/jacques-settings.cache";
     CacheWrite "/tmp/jacques-settings.cache" (VStr "true|95|null");
     Stdout "ctx:?%"].
Proof. repeat split; vm_compute; try reflexivity; discriminate. Qed.

Lemma main_status_line_witness :
  exists w',
    main Demo.os Demo.text_s1 Demo.w0 = (Ok tt, w') /\
    stdout_of (trace w') = stdout_of (trace Demo.w0) ++ ["[Foo] ctx:42% [AC:ON@95%]"%string].
Proof.
  apply (main_status_line Demo.os Demo.text_s1 Demo.doc_s1
           {| session_id := VStr "s1"; used_pct := VInt 42; remaining_pct := VInt 100;
              ctx_size := VInt 0; total_input := VInt 0; total_output := VInt 0;
              model := VStr "unknown"; model_display := VStr "Foo";
              cwd := VStr ""; project_dir := VStr ""; transcript_path := VStr "" |}
           Demo.w0 no_git Demo.w0 (VStr "")
           (extract_session_title Demo.os (VStr "s1") (VStr "") Demo.w0).2
           {| enabled := true; threshold := 95; bug_threshold := None |}
           (read_autocompact_settings Demo.os
              (extract_session_title Demo.os (VStr "s1") (VStr "") Demo.w0).2).2
           42).
  - repeat split; vm_compute; discriminate.
  - reflexivity.
  - reflexivity.
  - reflexivity.
  - reflexivity.
  - reflexivity.
  - reflexivity.
  - reflexivity.
Defined.

(** C4, the claim as stated fails: a known branch is set off by a space
    before the [@], and 42.75 percent is printed as 42. *)
Lemma status_line_with_branch :
  stdout_of (trace (main (Demo.with_subprocess Demo.git_on_main Demo.os)
                      Demo.text_s1_repo Demo.w_repo).2)
  = ["[Foo] ctx:42% @main [AC:ON@95%]"%string] /\
  "[Foo] ctx:42% @main [AC:ON@95%]"%string <> "[Foo] ctx:42%@main [AC:ON@95%]"%string /\
  "[Foo] ctx:42% @main [AC:ON@95%]"%string <> "[Foo] ctx:43%@main [AC:ON@95%]"%string.
Proof. repeat split; vm_compute; try reflexivity; discriminate. Qed.


(** ** More on strings *)

Lemma append_assoc (a b c : string) : (a +:+ b) +:+ c = a +:+ (b +:+ c).
Proof.
  induction a as [|x a IH]; [reflexivity|]. rewrite !append_cons. now rewrite IH.
Qed.

Lemma append_empty_r (a : string) : a +:+ EmptyString = a.
Proof. induction a as [|x a IH]; [reflexivity|]. rewrite append_cons. now rewrite IH. Qed.

Lemma mem_append c (a b : string) : Str.mem c (a +:+ b) = Str.mem c a || Str.mem c b.
Proof.
  induction a as [|x a IH]; [reflexivity|]. rewrite append_cons. cbn [Str.mem].
  now rewrite IH, orb_assoc.
Qed.

Lemma split_from_no_sep sep cur a :
  Str.mem sep a = false -> Str.split_from sep cur a = [cur +:+ a].
Proof.
  revert cur. induction a as [|x a IH]; intros cur Hmem.
  - cbn. now rewrite append_empty_r.
  - cbn [Str.mem] in Hmem. apply orb_false_iff in Hmem as [Hx Ha].
    cbn [Str.split_from]. rewrite Hx, (IH _ Ha), append_assoc. reflexivity.
Qed.

Lemma split_from_sep sep cur a rest :
  Str.mem sep a = false ->
  Str.split_from sep cur (a +:+ String sep rest)
  = (cur +:+ a) :: Str.split_from sep EmptyString rest.
Proof.
  revert cur. induction a as [|x a IH]; intros cur Hmem.
  - rewrite append_nil, append_empty_r. cbn [Str.split_from].
    now rewrite Ascii.eqb_refl.
  - cbn [Str.mem] in Hmem. apply orb_false_iff in Hmem as [Hx Ha].
    rewrite append_cons. cbn [Str.split_from]. rewrite Hx, (IH _ Ha), append_assoc.
    reflexivity.
Qed.

(** Three fields joined by a separator that none of the first two holds
    come apart again. *)
Lemma split_three sep a b c :
  Str.mem sep a = false -> Str.mem sep b = false -> Str.mem sep c = false ->
  Str.split sep (a +:+ String sep (b +:+ String sep c)) = [a; b; c].
Proof.
  intros Ha Hb Hc. unfold Str.split.
  rewrite (split_from_sep sep EmptyString a _ Ha), (split_from_sep sep EmptyString b _ Hb),
    (split_from_no_sep sep EmptyString c Hc).
  reflexivity.
Qed.

Lemma universal_newlines_id s :
  Str.mem Str.CR s = false -> Str.universal_newlines s = s.
Proof.
  induction s as [|c s IH]; [reflexivity|]. cbn [Str.mem Str.universal_newlines].
  intros [Hc Hs]%orb_false_iff. now rewrite Hc, (IH Hs).
Qed.

(** *** Decimal numerals *)

Ltac digit_step :=
  (change (Str.digit_val "0") with (Some 0) || change (Str.digit_val "1") with (Some 1)
   || change (Str.digit_val "2") with (Some 2) || change (Str.digit_val "3") with (Some 3)
   || change (Str.digit_val "4") with (Some 4) || change (Str.digit_val "5") with (Some 5)
   || change (Str.digit_val "6") with (Some 6) || change (Str.digit_val "7") with (Some 7)
   || change (Str.digit_val "8") with (Some 8) || change (Str.digit_val "9") with (Some 9));
  cbv beta iota.

Lemma parse_digits_acc d acc :
  Str.parse_digits (NilEmpty.string_of_uint d) (Z.pos acc) true
  = Some (Z.pos (Pos.of_uint_acc d acc)).
Proof.
  revert acc.
  induction d; intros acc;
    cbn [NilEmpty.string_of_uint Str.parse_digits Pos.of_uint_acc];
    try reflexivity; digit_step;
    match goal with
    | |- Str.parse_digits _ ?x _ = Some (Z.pos (Pos.of_uint_acc _ ?y)) =>
        replace x with (Z.pos y) by lia
    end; apply IHd.
Qed.

(** A numeral without sign parses to its value, leading zeros included. *)
Lemma parse_digits_uint d b :
  d <> Decimal.Nil ->
  Str.parse_digits (NilEmpty.string_of_uint d) 0 b = Some (Z.of_N (Pos.of_uint d)).
Proof.
  revert b. induction d; intros b Hd; try congruence;
    cbn [NilEmpty.string_of_uint Str.parse_digits Pos.of_uint]; digit_step;
    try (match goal with
         | |- Str.parse_digits _ ?x _ = Some (Z.of_N (N.pos (Pos.of_uint_acc _ ?y))) =>
             change x with (Z.pos y); apply parse_digits_acc
         end).
  change (10 * 0 + 0) with 0.
  destruct d; try (apply IHd; discriminate). reflexivity.
Qed.

Lemma string_of_uint_digits d : all_chars is_digit (NilEmpty.string_of_uint d) = true.
Proof. induction d; cbn [NilEmpty.string_of_uint all_chars]; try reflexivity; exact IHd. Qed.

Lemma lstrip_by_id p s :
  match s with EmptyString => true | String c _ => negb (p c) end = true ->
  Str.lstrip_by p s = s.
Proof. destruct s as [|c s]; [reflexivity|]. cbn. now destruct (p c). Qed.

Lemma rstrip_by_id p s :
  all_chars (fun c => negb (p c)) s = true -> Str.rstrip_by p s = s.
Proof.
  induction s as [|c s IH]; [reflexivity|]. cbn [all_chars Str.rstrip_by].
  intros [Hc Hs]%andb_true_iff. rewrite (IH Hs). apply negb_true_iff in Hc.
  now rewrite Hc.
Qed.

Lemma all_chars_impl (p q : ascii -> bool) s :
  (forall c, p c = true -> q c = true) ->
  all_chars p s = true -> all_chars q s = true.
Proof.
  intros Hpq. induction s as [|c s IH]; [reflexivity|]. cbn [all_chars].
  intros [Hc Hs]%andb_true_iff. now rewrite (Hpq c Hc), (IH Hs).
Qed.

Lemma digit_not_space c : is_digit c = true -> negb (Str.isspace_int c) = true.
Proof.
  destruct c as [[] [] [] [] [] [] [] []]; vm_compute; intros H;
    (reflexivity || discriminate).
Qed.

Lemma numeral_chars_no c (x : ascii) :
  is_digit x = false -> Ascii.eqb "-" x = false ->
  is_digit c || Ascii.eqb c "-" = true -> Ascii.eqb c x = false.
Proof.
  intros Hx Hm Hc. destruct (Ascii.eqb c x) eqn:E; [|reflexivity].
  apply Ascii.eqb_eq in E. subst c. rewrite Hx in Hc. cbn [orb] in Hc.
  rewrite Ascii.eqb_sym in Hc. congruence.
Qed.

(** Stripping leaves a numeral made of digits as it is, and [int] reads
    it without a sign. *)
Lemma to_Z_digits limit s :
  s <> EmptyString ->
  all_chars is_digit s = true ->
  Str.to_Z limit s
  = if Str.within_limit limit s then Str.parse_digits s 0 false else None.
Proof.
  intros Hne Hd. unfold Str.to_Z.
  assert (Hns : all_chars (fun c => negb (Str.isspace_int c)) s = true).
  { exact (all_chars_impl _ _ s digit_not_space Hd). }
  rewrite (lstrip_by_id _ s), (rstrip_by_id _ s Hns).
  2:{ destruct s as [|c s']; [reflexivity|]. cbn [all_chars] in Hns.
      now apply andb_true_iff in Hns as [-> _]. }
  destruct (Str.within_limit limit s); [|reflexivity]. cbn [negb].
  destruct s as [|c s']; [congruence|]. cbn [all_chars] in Hd.
  apply andb_true_iff in Hd as [Hc _].
  destruct c as [[] [] [] [] [] [] [] []]; try reflexivity; vm_compute in Hc; discriminate.
Qed.

Lemma within_limit_minus limit s :
  Str.within_limit limit (String "-" s) = Str.within_limit limit s.
Proof. destruct limit; reflexivity. Qed.

(** [int(str(z)) == z], as long as the numeral is within the limit of
    the interpreter. *)
Lemma to_Z_of_Z limit z :
  Str.within_limit limit (Str.of_Z z) = true ->
  Str.to_Z limit (Str.of_Z z) = Some z.
Proof.
  unfold Str.of_Z. destruct z as [|p|p]; cbn [Z.to_int NilZero.string_of_int].
  - intros Hl.
    change (NilZero.string_of_uint (Decimal.D0 Decimal.Nil)) with "0"%string in *.
    rewrite to_Z_digits by (reflexivity || discriminate). now rewrite Hl.
  - pose proof (DecimalPos.Unsigned.to_uint_nonnil p) as Hnn.
    assert (E : NilZero.string_of_uint (Pos.to_uint p)
                = NilEmpty.string_of_uint (Pos.to_uint p)).
    { unfold NilZero.string_of_uint. now destruct (Pos.to_uint p). }
    rewrite E. intros Hl. rewrite to_Z_digits.
    + now rewrite Hl, (parse_digits_uint _ _ Hnn), DecimalPos.Unsigned.of_to.
    + destruct (Pos.to_uint p); (congruence || discriminate).
    + apply string_of_uint_digits.
  - pose proof (DecimalPos.Unsigned.to_uint_nonnil p) as Hnn.
    assert (E : NilZero.string_of_uint (Pos.to_uint p)
                = NilEmpty.string_of_uint (Pos.to_uint p)).
    { unfold NilZero.string_of_uint. now destruct (Pos.to_uint p). }
    rewrite E, within_limit_minus. intros Hl. unfold Str.to_Z.
    set (s := NilEmpty.string_of_uint (Pos.to_uint p)) in *.
    assert (Hd : all_chars is_digit s = true) by apply string_of_uint_digits.
    assert (Hns : all_chars (fun c => negb (Str.isspace_int c)) (String "-" s) = true).
    { cbn [all_chars]. rewrite (all_chars_impl _ _ s digit_not_space Hd). reflexivity. }
    rewrite (lstrip_by_id _ (String "-" s)) by reflexivity.
    rewrite (rstrip_by_id _ _ Hns), within_limit_minus, Hl. cbn [negb].
    subst s. now rewrite (parse_digits_uint _ _ Hnn), DecimalPos.Unsigned.of_to.
Qed.

(** ** More on the cache store *)

Lemma replace_removes a b s : Ascii.eqb b a = false -> Str.mem a (Str.replace a b s) = false.
Proof.
  intros Hab. induction s as [|c s IH]; [reflexivity|]. cbn [Str.replace Str.mem].
  rewrite IH, orb_false_r. destruct (Ascii.eqb c a) eqn:E; [exact Hab | exact E].
Qed.



Section MoreCache.
Variable os : OS.


(** X2: The age test is [age > max_age]: a value is still returned when it is
    exactly [ttl] old, and with a negative [ttl] not even at once. *)
Theorem cache_freshness_boundary path v w ttl :
  Str.mem Str.CR v = false ->
  writable os w path ->
  read_error os path = None ->
  let written := (write_cache os path (VStr v) w).2 in
  ((0 <= ttl)%Q ->
   (read_cache os path ttl (set_now (now w + ttl) written)).1 = Ok (Some v)) /\
  ((ttl < 0)%Q -> (read_cache os path ttl written).1 = Ok None).
Proof.
  intros Hcr Hw Hr written. subst written. split; intros Httl.
  - apply (written_then_read os path v w ttl (now w + ttl) Hcr Hw Hr). lra.
  - destruct (written_then_read os path v w ttl (now w) Hcr Hw Hr) as [_ Hstale].
    assert (Hsame : set_now (now w) (write_cache os path (VStr v) w).2
                    = (write_cache os path (VStr v) w).2).
    { rewrite (write_cache_str os path v w Hw). reflexivity. }
    rewrite Hsame in Hstale. apply Hstale. lra.
Qed.

(** X3: The last writer wins, and the age counts from the last write: a value
    written at time [t2] over an older one is what a read returns until
    [t2 + ttl]. *)
Theorem cache_overwrite path v1 v2 w t2 t3 ttl :
  Str.mem Str.CR v2 = false ->
  writable os w path ->
  read_error os path = None ->
  (t3 - t2 <= ttl)%Q ->
  let first := set_now t2 (write_cache os path (VStr v1) w).2 in
  let second := set_now t3 (write_cache os path (VStr v2) first).2 in
  (read_cache os path ttl second).1 = Ok (Some v2).
Proof.
  intros Hcr Hw Hr Hage first second.
  assert (Hw1 : writable os first path).
  { subst first. rewrite (write_cache_str os path v1 w Hw). destruct Hw as (He & _ & _).
    repeat split; [exact He | |]; cbn; rewrite lookup_insert_eq; discriminate. }
  subst second.
  apply (written_then_read os path v2 first ttl t3 Hcr Hw1 Hr).
  subst first. exact Hage.
Qed.
End MoreCache.

Lemma cache_freshness_boundary_witness :
  (read_cache Demo.os "/tmp/jacques-title-s1.cache" 300
     (set_now (now Demo.w0 + 300)
        (write_cache Demo.os "/tmp/jacques-title-s1.cache" (VStr "T") Demo.w0).2)).1
  = Ok (Some "T"%string) /\
  (read_cache Demo.os "/tmp/jacques-title-s1.cache" (-1)
     (write_cache Demo.os "/tmp/jacques-title-s1.cache" (VStr "T") Demo.w0).2).1
  = Ok None.
Proof.
  assert (Hw : writable Demo.os Demo.w0 "/tmp/jacques-title-s1.cache").
  { split; [reflexivity | split; vm_compute; discriminate]. }
  split.
  - apply (proj1 (cache_freshness_boundary Demo.os "/tmp/jacques-title-s1.cache" "T"
                    Demo.w0 300 eq_refl Hw eq_refl)).
    vm_compute. discriminate.
  - apply (proj2 (cache_freshness_boundary Demo.os "/tmp/jacques-title-s1.cache" "T"
                    Demo.w0 (-1) eq_refl Hw eq_refl)).
    reflexivity.
Defined.

Lemma cache_overwrite_witness :
  let first := set_now 5000 (write_cache Demo.os "/tmp/jacques-title-s1.cache"
                               (VStr "old") Demo.w0).2 in
  let second := set_now 5300 (write_cache Demo.os "/tmp/jacques-title-s1.cache"
                                (VStr "new") first).2 in
  (read_cache Demo.os "/tmp/jacques-title-s1.cache" 300 second).1 = Ok (Some "new"%string).
Proof.
  apply (cache_overwrite Demo.os "/tmp/jacques-title-s1.cache" "old" "new" Demo.w0
           5000 5300 300).
  - reflexivity.
  - split; [reflexivity | split; vm_compute; discriminate].
  - reflexivity.
  - vm_compute. discriminate.
Defined.

(** ** More on the git context *)

(** Goes through a computation for a predicate on events that the
    events it meets satisfy by computation. *)
Ltac emits_walk :=
  repeat first
    [ apply emits_ret | apply emits_lift
    | apply emits_isfile | apply emits_path_exists | apply emits_time
    | apply emits_isdir | apply emits_read_text
    | apply emits_read_cache; reflexivity
    | apply emits_write_cache; reflexivity
    | apply emits_run; reflexivity
    | apply emits_emit; reflexivity
    | apply emits_bind; [|intros ?]
    | apply emits_try_except
    | match goal with
      | |- emits _ (if ?b then _ else _) => destruct b
      | |- emits _ (match ?x with _ => _ end) => destruct x
      end ].

Section MoreGit.
Variable os : OS.

(** X4: The three cached fields come apart again when none holds a line
    feed. *)
Theorem git_cache_text_round_trip g :
  Str.mem Str.LF (git_branch g) = false ->
  Str.mem Str.LF (git_worktree g) = false ->
  Str.mem Str.LF (git_repo_root g) = false ->
  git_of_lines (Str.split Str.LF (git_cache_text g)) = g.
Proof.
  intros Hb Hw Hr. unfold git_cache_text. rewrite (split_three _ _ _ _ Hb Hw Hr).
  now destruct g.
Qed.

(** The resolver for an existing directory, after the cache lookup. *)
Lemma detect_git_info_lookup dir w cp :
  dir <> EmptyString ->
  fs w !! dir = Some Dir ->
  cache_path os "git" (VStr dir) = Ok cp ->
  detect_git_info os (VStr dir) w
  = match cache_lookup os cp 60 w with
    | Some text => (Ok (git_of_lines (Str.split Str.LF text)), log (CacheRead cp) w)
    | None =>
        (helped <- git_detect_sh os cp dir ;;
         match helped with
         | Some result => ret result
         | None =>
             result <- git_inline os dir ;;
             write_cache os cp (VStr (git_cache_text result)) ;;;
             ret result
         end) (log (CacheRead cp) w)
    end.
Proof.
  intros Hne Hdir Hcp.
  unfold detect_git_info. rewrite truthy_str, (is_empty_false dir Hne).
  cbn [negb]. run_M. rewrite Hdir, Hcp. run_M. rewrite read_cache_eq.
  now destruct (cache_lookup os cp 60 w).
Qed.

(** A fresh cache entry answers alone: its three lines are the context,
    missing lines are empty, and nothing is started or written. *)
Theorem detect_git_info_hit dir w cp text :
  dir <> EmptyString ->
  fs w !! dir = Some Dir ->
  cache_path os "git" (VStr dir) = Ok cp ->
  cache_lookup os cp 60 w = Some text ->
  detect_git_info os (VStr dir) w
  = (Ok (git_of_lines (Str.split Str.LF text)), log (CacheRead cp) w).
Proof.
  intros Hne Hdir Hcp Hhit. now rewrite (detect_git_info_lookup dir w cp), Hhit.
Qed.

Lemma git_detect_sh_unavailable cp dir w :
  helper_unavailable os w -> git_detect_sh os cp dir w = (Ok None, w).
Proof.
  unfold helper_unavailable, git_detect_sh. fold (helper_path os).
  intros [Hwin | [Hfile | Hx]].
  - now rewrite Hwin.
  - destruct (negb (is_windows os)); [|reflexivity]. run_M.
    destruct (fs w !! helper_path os) as [[c t| |]|] eqn:Hf; try reflexivity.
    now destruct (Hfile c t).
  - destruct (negb (is_windows os)); [|reflexivity]. run_M. rewrite Hx.
    now rewrite andb_false_r.
Qed.

(** On a miss, what the cache file holds afterwards is the context that
    was returned. *)
Lemma detect_git_info_miss_file dir w cp g w1 :
  dir <> EmptyString ->
  fs w !! dir = Some Dir ->
  cache_path os "git" (VStr dir) = Ok cp ->
  cache_lookup os cp 60 w = None ->
  writable os w cp ->
  detect_git_info os (VStr dir) w = (Ok g, w1) ->
  fs w1 !! cp
  = Some (File (Str.write_newlines (linesep os) (git_cache_text g)) (now w)).
Proof.
  intros Hne Hdir Hcp Hmiss Hw.
  rewrite (detect_git_info_lookup dir w cp Hne Hdir Hcp), Hmiss.
  set (w0 := log (CacheRead cp) w). unfold bind at 1.
  destruct (git_detect_sh_cases os cp dir w0) as [(evs & Hsh & _) | (g' & args & Hsh)];
    rewrite Hsh.
  - set (w2 := {| fs := fs w0; now := now w0; trace := trace w0 ++ evs |}).
    destruct (git_inline_total os dir w2) as (g' & args & Hin).
    unfold bind. rewrite Hin.
    assert (Hw2 : writable os (log (Spawn args) w2) cp) by exact Hw.
    rewrite (write_cache_str os cp _ _ Hw2). unfold ret. intros [= <- <-].
    cbn. apply lookup_insert_eq.
  - assert (Hw2 : writable os (log (Spawn args) w0) cp) by exact Hw.
    rewrite (write_cache_str os cp _ _ Hw2). unfold ret. intros [= <- <-].
    cbn. apply lookup_insert_eq.
Qed.

(** X5: Without the helper, a [git] that cannot be run or that fails gives the
    all-empty context, which is cached like any other. *)
Theorem detect_git_info_git_failure dir w cp :
  dir <> EmptyString ->
  fs w !! dir = Some Dir ->
  cache_path os "git" (VStr dir) = Ok cp ->
  cache_lookup os cp 60 w = None ->
  helper_unavailable os w ->
  match subprocess_run os (git_args dir) with
  | Ok p => returncode p <> 0
  | Raise _ => True
  end ->
  exists w',
    detect_git_info os (VStr dir) w = (Ok no_git, w') /\
    trace w' = trace w ++ [CacheRead cp; Spawn (git_args dir);
                           CacheWrite cp (VStr (git_cache_text no_git))].
Proof.
  intros Hne Hdir Hcp Hmiss Hhelper Hfail.
  rewrite (detect_git_info_lookup dir w cp Hne Hdir Hcp), Hmiss.
  assert (Hh : helper_unavailable os (log (CacheRead cp) w)) by exact Hhelper.
  unfold bind at 1. rewrite (git_detect_sh_unavailable cp dir _ Hh).
  assert (Hin : git_inline os dir (log (CacheRead cp) w)
                = (Ok no_git, log (Spawn (git_args dir)) (log (CacheRead cp) w))).
  { unfold git_inline, run. fold (git_args dir). run_M.
    destruct (subprocess_run os (git_args dir)) as [[rc out]|e]; [|reflexivity].
    cbn [returncode] in *. run_M. cbn [returncode].
    destruct (Z.eqb_spec rc 0); [contradiction | reflexivity]. }
  unfold bind. rewrite Hin.
  destruct (write_cache_frame os cp (VStr (git_cache_text no_git))
              (log (Spawn (git_args dir)) (log (CacheRead cp) w))) as (_ & Htr & _).
  destruct (write_cache_total os cp (VStr (git_cache_text no_git))
              (log (Spawn (git_args dir)) (log (CacheRead cp) w))) as [m Hm].
  rewrite Hm in *. eexists. split; [reflexivity|].
  cbn [snd] in Htr. rewrite Htr. cbn. now rewrite <- !app_assoc.
Qed.

(** X6: Without the helper, the answer of [git]: the first line is the
    branch; a common directory [.git] makes the resolved directory the
    root and leaves the worktree empty, any other one makes the parent of
    the resolved common directory the root and the base name of the
    directory the worktree. *)
Theorem detect_git_info_inline dir w cp out branch common rest real :
  dir <> EmptyString ->
  fs w !! dir = Some Dir ->
  cache_path os "git" (VStr dir) = Ok cp ->
  cache_lookup os cp 60 w = None ->
  helper_unavailable os w ->
  subprocess_run os (git_args dir) = Ok {| returncode := 0; stdout := out |} ->
  Str.split Str.LF (Str.strip out) = branch :: common :: rest ->
  common <> EmptyString ->
  path_realpath os (if String.eqb common ".git" then dir else path_join os dir common)
  = Ok real ->
  (detect_git_info os (VStr dir) w).1
  = Ok (if String.eqb common ".git"
        then {| git_branch := branch; git_worktree := ""; git_repo_root := real |}
        else {| git_branch := branch; git_worktree := path_basename os dir;
                git_repo_root := path_dirname os real |}).
Proof.
  intros Hne Hdir Hcp Hmiss Hhelper Hrun Hsplit Hcommon Hreal.
  rewrite (detect_git_info_lookup dir w cp Hne Hdir Hcp), Hmiss.
  assert (Hh : helper_unavailable os (log (CacheRead cp) w)) by exact Hhelper.
  unfold bind at 1. rewrite (git_detect_sh_unavailable cp dir _ Hh).
  set (g := if String.eqb common ".git" then _ else _).
  assert (Hin : git_inline os dir (log (CacheRead cp) w)
                = (Ok g, log (Spawn (git_args dir)) (log (CacheRead cp) w))).
  { unfold git_inline, run. fold (git_args dir). run_M. rewrite Hrun.
    cbn [returncode stdout]. run_M. cbn [returncode stdout]. rewrite Hsplit. subst g.
    destruct (String.eqb common ".git").
    - run_M. now rewrite Hreal.
    - rewrite (is_empty_false common Hcommon). run_M. now rewrite Hreal. }
  unfold bind. rewrite Hin.
  destruct (write_cache_total os cp (VStr (git_cache_text g))
              (log (Spawn (git_args dir)) (log (CacheRead cp) w))) as [m Hm].
  now rewrite Hm.
Qed.

(** X7: With the helper at hand on a Unix platform and exiting with 0, its
    three output lines are the context; [git] itself is not started. *)
Theorem detect_git_info_helper dir w cp out :
  dir <> EmptyString ->
  fs w !! dir = Some Dir ->
  cache_path os "git" (VStr dir) = Ok cp ->
  cache_lookup os cp 60 w = None ->
  is_windows os = false ->
  (exists c t, fs w !! helper_path os = Some (File c t)) ->
  access_x os (helper_path os) = true ->
  subprocess_run os [helper_path os; dir] = Ok {| returncode := 0; stdout := out |} ->
  let g := git_of_lines (Str.split Str.LF out) in
  exists w',
    detect_git_info os (VStr dir) w = (Ok g, w') /\
    trace w' = trace w ++ [CacheRead cp; Spawn [helper_path os; dir];
                           CacheWrite cp (VStr (git_cache_text g))].
Proof.
  intros Hne Hdir Hcp Hmiss Hwin (c & t & Hfile) Hx Hrun g.
  rewrite (detect_git_info_lookup dir w cp Hne Hdir Hcp), Hmiss.
  assert (Hsh : git_detect_sh os cp dir (log (CacheRead cp) w)
                = (Ok (Some g),
                   (write_cache os cp (VStr (git_cache_text g))
                      (log (Spawn [helper_path os; dir]) (log (CacheRead cp) w))).2)).
  { unfold git_detect_sh, run. fold (helper_path os). rewrite Hwin. cbn [negb].
    run_M. rewrite Hfile, Hx. cbn [andb]. run_M. rewrite Hrun.
    cbn [returncode stdout]. run_M. cbn [returncode stdout]. fold g.
    change (0 =? 0) with true. cbv beta iota.
    destruct (write_cache_total os cp (VStr (git_cache_text g))
                (log (Spawn [helper_path os; dir]) (log (CacheRead cp) w))) as [m Hm].
    now rewrite Hm. }
  unfold bind. rewrite Hsh. unfold ret. eexists. split; [reflexivity|].
  destruct (write_cache_frame os cp (VStr (git_cache_text g))
              (log (Spawn [helper_path os; dir]) (log (CacheRead cp) w))) as (_ & Htr & _).
  rewrite Htr. cbn. now rewrite <- !app_assoc.
Qed.

(** X8: On Windows the helper script is never started. *)
Theorem detect_git_info_windows project_dir :
  is_windows os = true -> emits spawns_only_git (detect_git_info os project_dir).
Proof.
  intros Hwin. unfold detect_git_info, git_detect_sh, git_inline. rewrite Hwin.
  cbn [negb]. emits_walk.
Qed.

(** The argument of the resolver: every string is answered, a falsy
    value gives the empty context at once, and a float, a list or a dict
    that is truthy makes [os.path.isdir] raise [TypeError]. *)
Theorem detect_git_info_argument project_dir w :
  match project_dir with
  | VStr _ => exists g w', detect_git_info os project_dir w = (Ok g, w')
  | VFloat _ | VList _ | VDict _ | VNone =>
      detect_git_info os project_dir w
      = if Py.truthy project_dir then (Raise TypeError, w) else (Ok no_git, w)
  | VInt _ | VBool _ => True
  end.
Proof.
  destruct project_dir; try exact I;
    try (unfold detect_git_info; destruct (Py.truthy _); reflexivity).
  apply returns_detect_git_info.
Qed.
End MoreGit.

(** X9: Within 60 seconds of a miss the same context is returned again, and
    nothing is started for it: whatever [git] would say by then, and for
    every directory whose key leads to the same cache file. *)
Theorem detect_git_info_idempotent os os2 dir dir2 w cp g w1 w2 :
  dir <> EmptyString ->
  fs w !! dir = Some Dir ->
  cache_path os "git" (VStr dir) = Ok cp ->
  cache_lookup os cp 60 w = None ->
  writable os w cp ->
  detect_git_info os (VStr dir) w = (Ok g, w1) ->
  one_line (git_branch g) -> one_line (git_worktree g) -> one_line (git_repo_root g) ->
  dir2 <> EmptyString ->
  fs w2 !! dir2 = Some Dir ->
  cache_path os2 "git" (VStr dir2) = Ok cp ->
  is_windows os2 = is_windows os ->
  read_error os2 cp = None ->
  fs w2 !! cp = fs w1 !! cp ->
  (now w2 - now w <= 60)%Q ->
  detect_git_info os2 (VStr dir2) w2 = (Ok g, log (CacheRead cp) w2).
Proof.
  intros Hne Hdir Hcp Hmiss Hw Hrun [Hb1 Hb2] [Hw1 Hw2] [Hr1 Hr2]
    Hne2 Hdir2 Hcp2 Hwin Hread Hfs Hage.
  pose proof (detect_git_info_miss_file os dir w cp g w1 Hne Hdir Hcp Hmiss Hw Hrun) as Hfile.
  rewrite <- Hfs in Hfile.
  assert (Hcr : Str.mem Str.CR (git_cache_text g) = false).
  { unfold git_cache_text. rewrite !mem_append. cbn [Str.mem].
    rewrite !mem_append. cbn [Str.mem]. rewrite Hb2, Hw2, Hr2. reflexivity. }
  assert (Hhit : cache_lookup os2 cp 60 w2 = Some (git_cache_text g)).
  { rewrite (cache_lookup_fresh os2 cp 60 w2 _ _ Hfile Hage Hread).
    unfold linesep. rewrite <- Hwin. fold (linesep os2).
    now rewrite newline_round_trip. }
  rewrite (detect_git_info_lookup os2 dir2 w2 cp Hne2 Hdir2 Hcp2), Hhit.
  unfold git_cache_text. rewrite (split_three _ _ _ _ Hb1 Hw1 Hr1).
  now destruct g.
Qed.

Lemma git_cache_text_round_trip_witness :
  git_of_lines
    (Str.split Str.LF
       (git_cache_text {| git_branch := "main"; git_worktree := "";
                          git_repo_root := "/repo" |}))
  = {| git_branch := "main"; git_worktree := ""; git_repo_root := "/repo" |}.
Proof.
  apply (git_cache_text_round_trip
           {| git_branch := "main"; git_worktree := ""; git_repo_root := "/repo" |});
    reflexivity.
Defined.

Lemma detect_git_info_hit_witness :
  detect_git_info Demo.os (VStr "/repo") (Demo.w_repo_cached "feature")
  = (Ok {| git_branch := "feature"; git_worktree := ""; git_repo_root := "" |},
     log (CacheRead "/tmp/jacques-git--repo.cache") (Demo.w_repo_cached "feature")).
Proof.
  apply (detect_git_info_hit Demo.os "/repo" (Demo.w_repo_cached "feature")
           "/tmp/jacques-git--repo.cache" "feature");
    (reflexivity || discriminate).
Defined.

Lemma detect_git_info_git_failure_witness :
  exists w',
    detect_git_info Demo.os (VStr "/repo") Demo.w_repo = (Ok no_git, w') /\
    trace w' = trace Demo.w_repo
               ++ [CacheRead "/tmp/jacques-git--repo.cache"; Spawn (git_args "/repo");
                   CacheWrite "/tmp/jacques-git--repo.cache"
                     (VStr (git_cache_text no_git))].
Proof.
  apply (detect_git_info_git_failure Demo.os "/repo" Demo.w_repo
           "/tmp/jacques-git--repo.cache").
  - discriminate.
  - reflexivity.
  - reflexivity.
  - reflexivity.
  - right. left. intros c t. vm_compute. discriminate.
  - exact I.
Defined.

Lemma detect_git_info_inline_witness :
  (detect_git_info (Demo.with_subprocess Demo.git_on_main Demo.os) (VStr "/repo")
     Demo.w_repo).1
  = Ok {| git_branch := "main"; git_worktree := ""; git_repo_root := "/repo" |}.
Proof.
  apply (detect_git_info_inline (Demo.with_subprocess Demo.git_on_main Demo.os)
           "/repo" Demo.w_repo "/tmp/jacques-git--repo.cache"
           ("main" +:+ String Str.LF (".git" +:+ String Str.LF EmptyString))
           "main" ".git" [] "/repo").
  - discriminate.
  - reflexivity.
  - reflexivity.
  - reflexivity.
  - right. left. intros c t. vm_compute. discriminate.
  - reflexivity.
  - reflexivity.
  - discriminate.
  - reflexivity.
Defined.

Lemma detect_git_info_helper_witness :
  exists w',
    detect_git_info Demo.os_helper (VStr "/repo") Demo.w_repo_helper
    = (Ok {| git_branch := "main"; git_worktree := ""; git_repo_root := "/repo" |}, w') /\
    trace w' = trace Demo.w_repo_helper
               ++ [CacheRead "/tmp/jacques-git--repo.cache";
                   Spawn [helper_path Demo.os_helper; "/repo"%string];
                   CacheWrite "/tmp/jacques-git--repo.cache"
                     (VStr (git_cache_text
                              {| git_branch := "main"; git_worktree := "";
                                 git_repo_root := "/repo" |}))].
Proof.
  apply (detect_git_info_helper Demo.os_helper "/repo" Demo.w_repo_helper
           "/tmp/jacques-git--repo.cache"
           ("main" +:+ String Str.LF (String Str.LF "/repo"))).
  - discriminate.
  - reflexivity.
  - reflexivity.
  - reflexivity.
  - reflexivity.
  - exists "#!/bin/sh"%string, 0%Q. reflexivity.
  - reflexivity.
  - reflexivity.
Defined.

Lemma detect_git_info_windows_witness :
  emits spawns_only_git (detect_git_info Demo.os_windows (VStr "/repo")).
Proof. apply (detect_git_info_windows Demo.os_windows (VStr "/repo")). reflexivity. Defined.

(** The second resolution is made with a [git] that has ceased to work
    and for the directory [/repo] again. *)
Lemma detect_git_info_idempotent_witness :
  detect_git_info Demo.os (VStr "/repo")
    (detect_git_info (Demo.with_subprocess Demo.git_on_main Demo.os) (VStr "/repo")
       Demo.w_repo).2
  = (Ok {| git_branch := "main"; git_worktree := ""; git_repo_root := "/repo" |},
     log (CacheRead "/tmp/jacques-git--repo.cache")
       (detect_git_info (Demo.with_subprocess Demo.git_on_main Demo.os) (VStr "/repo")
          Demo.w_repo).2).
Proof.
  apply (detect_git_info_idempotent (Demo.with_subprocess Demo.git_on_main Demo.os)
           Demo.os "/repo" "/repo" Demo.w_repo "/tmp/jacques-git--repo.cache"
           {| git_branch := "main"; git_worktree := ""; git_repo_root := "/repo" |}
           (detect_git_info (Demo.with_subprocess Demo.git_on_main Demo.os)
              (VStr "/repo") Demo.w_repo).2
           (detect_git_info (Demo.with_subprocess Demo.git_on_main Demo.os)
              (VStr "/repo") Demo.w_repo).2);
    try (reflexivity || discriminate).
  all: try (split; reflexivity).
  all: try (split; [reflexivity | split; vm_compute; discriminate]).
  all: vm_compute; discriminate.
Defined.

(** ** More on the session title *)

Lemma mem_take c n s : Str.mem c s = false -> Str.mem c (Str.take n s) = false.
Proof.
  revert s. induction n as [|n IH]; intros [|x s]; cbn [Str.take Str.mem];
    try reflexivity.
  intros [Hx Hs]%orb_false_iff. now rewrite Hx, (IH s Hs).
Qed.

Section MoreTitle.
Variable os : OS.

(** A fresh cache entry is the title, as it stands and even when it is
    empty: neither the index nor the transcript is looked at. *)
Lemma extract_session_title_cached sid transcript_path w cp text :
  sid <> EmptyString ->
  cache_path os "title" (VStr sid) = Ok cp ->
  cache_lookup os cp 300 w = Some text ->
  extract_session_title os (VStr sid) transcript_path w
  = (Ok (VStr text), log (CacheRead cp) w).
Proof.
  intros Hsid Hcp Hhit. unfold extract_session_title.
  rewrite truthy_str, (is_empty_false sid Hsid). cbn [negb]. rewrite Hcp.
  cbv beta iota zeta delta [bind lift fspath]. now rewrite read_cache_eq, Hhit.
Qed.

(** X10: The arguments of the resolver: a falsy session id gives the empty
    title and leaves the world alone; a session id that is truthy and no
    string raises [AttributeError] before anything is done; a transcript
    path that is truthy and no string raises [TypeError] once the cache
    was missed. *)
Theorem extract_session_title_arguments session_id transcript_path w :
  (Py.truthy session_id = false ->
   extract_session_title os session_id transcript_path w = (Ok (VStr ""), w)) /\
  (Py.truthy session_id = true -> (forall s, session_id <> VStr s) ->
   extract_session_title os session_id transcript_path w = (Raise AttributeError, w)) /\
  (forall sid cp,
      session_id = VStr sid -> sid <> EmptyString ->
      cache_path os "title" (VStr sid) = Ok cp ->
      cache_lookup os cp 300 w = None ->
      Py.truthy transcript_path = true -> (forall s, transcript_path <> VStr s) ->
      extract_session_title os session_id transcript_path w
      = (Raise TypeError, log (CacheRead cp) w)).
Proof.
  split; [|split].
  - intros Hf. unfold extract_session_title. now rewrite Hf.
  - intros Ht Hns. unfold extract_session_title. rewrite Ht.
    destruct session_id; try reflexivity. now destruct (Hns s).
  - intros sid cp -> Hsid Hcp Hmiss Htp Hns. unfold extract_session_title.
    rewrite truthy_str, (is_empty_false sid Hsid). cbn [negb]. rewrite Hcp.
    cbv beta iota zeta delta [bind lift fspath]. rewrite read_cache_eq, Hmiss.
    unfold title_from_index. rewrite Htp. unfold bind, lift.
    destruct transcript_path; try reflexivity. now destruct (Hns s).
Qed.

(** X11: An empty title is not cached: when no source gives a title, the run
    has only read the cache, so that the next run looks again. *)
Theorem empty_title_not_cached sid tp w cp title w' :
  sid <> EmptyString ->
  tp <> EmptyString ->
  cache_path os "title" (VStr sid) = Ok cp ->
  cache_lookup os cp 300 w = None ->
  extract_session_title os (VStr sid) (VStr tp) w = (Ok title, w') ->
  Py.truthy title = false ->
  w' = log (CacheRead cp) w.
Proof.
  intros Hsid Htp Hcp Hmiss Hrun Hfalsy.
  destruct (title_from_index_total os sid tp (log (CacheRead cp) w)) as [t1 Hidx].
  rewrite (extract_session_title_miss os sid tp w cp t1 Hsid Htp Hcp Hmiss Hidx) in Hrun.
  injection Hrun as Ht <-. rewrite Ht, Hfalsy. reflexivity.
Qed.


(** X13: A title that is no string, such as a summary that is a number, is
    returned once; the attempt to cache it leaves an empty cache file, so
    that for 300 seconds the resolver returns the empty title. *)
Theorem title_not_a_string_empties_cache sid tp tp2 w cp title w1 w2 :
  sid <> EmptyString ->
  tp <> EmptyString ->
  cache_path os "title" (VStr sid) = Ok cp ->
  cache_lookup os cp 300 w = None ->
  writable os w cp ->
  read_error os cp = None ->
  extract_session_title os (VStr sid) (VStr tp) w = (Ok title, w1) ->
  Py.truthy title = true ->
  (forall s, title <> VStr s) ->
  fs w2 !! cp = fs w1 !! cp ->
  (now w2 - now w <= 300)%Q ->
  extract_session_title os (VStr sid) tp2 w2 = (Ok (VStr ""), log (CacheRead cp) w2).
Proof.
  intros Hsid Htp Hcp Hmiss (Hwe & Hwd & Hws) Hr Hrun Ht Hns Hfs Hage.
  destruct (title_from_index_total os sid tp (log (CacheRead cp) w)) as [t1 Hidx].
  rewrite (extract_session_title_miss os sid tp w cp t1 Hsid Htp Hcp Hmiss Hidx) in Hrun.
  injection Hrun as Hti Hw1. rewrite Hti, Ht in Hw1.
  assert (Hfile : fs w1 !! cp = Some (File EmptyString (now w))).
  { rewrite <- Hw1. unfold write_cache. run_M. rewrite Hwe.
    destruct (fs w !! cp) as [[c t| |]|] eqn:Hf; try congruence;
      destruct title; try (now destruct (Hns s)); cbn; apply lookup_insert_eq. }
  apply extract_session_title_cached; [exact Hsid | exact Hcp |].
  rewrite (cache_lookup_fresh os cp 300 w2 EmptyString (now w));
    [reflexivity | now rewrite Hfs | exact Hage | exact Hr].
Qed.

(** X14: Lines that carry no tag of the kind looked for, and tagged lines that
    do not parse, change nothing in either scan, wherever they stand. *)
Theorem scans_skip_malformed_lines before bad after title :
  skipped_line os "summary" bad ->
  skipped_line os "user" bad ->
  last_summary os (before ++ bad :: after) title
  = last_summary os (before ++ after) title /\
  first_user_message os (before ++ bad :: after) title
  = first_user_message os (before ++ after) title.
Proof.
  intros Hsum Husr. split.
  - revert title. induction before as [|raw rest IH]; intros title.
    + cbn [app]. rewrite last_summary_cons.
      unfold clean_line, summary_of_line.
      destruct Hsum as [-> | ->]; [reflexivity|].
      now destruct (tagged "summary" (Str.strip bad)).
    + cbn [app]. rewrite !last_summary_cons.
      destruct (clean_line os "summary" raw); [apply IH | reflexivity].
  - induction before as [|raw rest IH].
    + cbn [app]. rewrite first_user_message_cons.
      unfold clean_line, user_message_of_line.
      destruct Husr as [-> | ->]; [reflexivity|].
      now destruct (tagged "user" (Str.strip bad)).
    + cbn [app]. rewrite !first_user_message_cons.
      destruct (user_message_of_line os raw); [reflexivity|].
      destruct (clean_line os "user" raw); [apply IH | reflexivity].
Qed.

(** X15: A tagged line that parses to something that is no object ends the
    scan at once: the candidate stays as it is, and records further down
    are not seen. *)
Theorem scans_stop_at_non_object kind raw rest title v :
  tagged kind (Str.strip raw) = true ->
  json_loads os (Str.strip raw) = Ok v ->
  Py.isinstance_dict v = false ->
  (kind = "summary"%string -> last_summary os (raw :: rest) title = title) /\
  (kind = "user"%string -> first_user_message os (raw :: rest) title = title).
Proof.
  intros Htag Hj Hv. split; intros ->.
  - cbn [last_summary]. rewrite Htag, Hj. now destruct v.
  - cbn [first_user_message]. rewrite Htag, Hj. cbn [negb]. now destruct v.
Qed.

(** X16: What the third source can give: the candidate it was given, or one
    line of 3 to 53 characters. *)
Theorem first_message_title_shape lines title :
  first_user_message os lines title = title \/
  exists s,
    first_user_message os lines title = VStr s /\
    (3 <= String.length s <= 53)%nat /\
    Str.mem Str.LF s = false.
Proof.
  destruct (first_user_message_shape os lines title) as [H | (raw & c & _ & _ & H)];
    [now left | right].
  eexists. split; [exact H|]. split.
  - rewrite append_length, take_length. cbn [String.length]. lia.
  - rewrite mem_append. apply orb_false_iff. split; [|reflexivity].
    apply mem_take, replace_removes. reflexivity.
Qed.
End MoreTitle.

(** The session ids [0] and [7], and the transcript path [5]. *)
Lemma extract_session_title_arguments_witness :
  extract_session_title Demo.os (VInt 0) (VStr "/proj/s1.jsonl") Demo.w0
  = (Ok (VStr ""), Demo.w0) /\
  extract_session_title Demo.os (VInt 7) (VStr "/proj/s1.jsonl") Demo.w0
  = (Raise AttributeError, Demo.w0) /\
  extract_session_title Demo.os (VStr "s1") (VInt 5) Demo.w0
  = (Raise TypeError, log (CacheRead "/tmp/jacques-title-s1.cache") Demo.w0).
Proof.
  split; [|split].
  - apply (proj1 (extract_session_title_arguments Demo.os (VInt 0)
                    (VStr "/proj/s1.jsonl") Demo.w0)).
    reflexivity.
  - apply (proj1 (proj2 (extract_session_title_arguments Demo.os (VInt 7)
                           (VStr "/proj/s1.jsonl") Demo.w0)));
      [reflexivity | discriminate].
  - apply (proj2 (proj2 (extract_session_title_arguments Demo.os (VStr "s1")
                           (VInt 5) Demo.w0)) "s1"%string
             "/tmp/jacques-title-s1.cache"%string);
      (reflexivity || discriminate).
Defined.

(** A session whose transcript does not exist. *)
Lemma empty_title_not_cached_witness :
  (extract_session_title Demo.os (VStr "s1") (VStr "/proj/s1.jsonl") Demo.w0).2
  = log (CacheRead "/tmp/jacques-title-s1.cache") Demo.w0.
Proof.
  apply (empty_title_not_cached Demo.os "s1" "/proj/s1.jsonl" Demo.w0
           "/tmp/jacques-title-s1.cache" (VStr "")
           (extract_session_title Demo.os (VStr "s1") (VStr "/proj/s1.jsonl") Demo.w0).2);
    (reflexivity || discriminate).
Defined.


(** A summary record whose summary is the number 7. *)
Lemma title_not_a_string_empties_cache_witness :
  let w := Demo.w_transcript [Demo.text_summary_number] in
  extract_session_title Demo.os_odd (VStr "s1") (VStr "/proj/s1.jsonl") w
  = (Ok (VInt 7), (extract_session_title Demo.os_odd (VStr "s1")
                     (VStr "/proj/s1.jsonl") w).2) /\
  extract_session_title Demo.os_odd (VStr "s1") (VStr "/proj/s1.jsonl")
    (extract_session_title Demo.os_odd (VStr "s1") (VStr "/proj/s1.jsonl") w).2
  = (Ok (VStr ""),
     log (CacheRead "/tmp/jacques-title-s1.cache")
       (extract_session_title Demo.os_odd (VStr "s1") (VStr "/proj/s1.jsonl") w).2).
Proof.
  intros w. split; [reflexivity|].
  apply (title_not_a_string_empties_cache Demo.os_odd "s1" "/proj/s1.jsonl"
           (VStr "/proj/s1.jsonl") w "/tmp/jacques-title-s1.cache" (VInt 7)
           (extract_session_title Demo.os_odd (VStr "s1") (VStr "/proj/s1.jsonl") w).2
           (extract_session_title Demo.os_odd (VStr "s1") (VStr "/proj/s1.jsonl") w).2);
    try (reflexivity || discriminate).
  all: try (split; [reflexivity | split; vm_compute; discriminate]).
  all: vm_compute; discriminate.
Defined.

(** A line of prose between two summary records. *)
Lemma scans_skip_malformed_lines_witness :
  last_summary Demo.os
    ([Demo.text_summary "B0"] ++ "not a record"%string :: [Demo.text_summary "B"])
    (VStr "")
  = last_summary Demo.os ([Demo.text_summary "B0"] ++ [Demo.text_summary "B"]) (VStr "") /\
  first_user_message Demo.os
    ([Demo.text_summary "B0"] ++ "not a record"%string :: [Demo.text_summary "B"])
    (VStr "")
  = first_user_message Demo.os ([Demo.text_summary "B0"] ++ [Demo.text_summary "B"])
      (VStr "").
Proof.
  apply (scans_skip_malformed_lines Demo.os [Demo.text_summary "B0"] "not a record"
           [Demo.text_summary "B"] (VStr "")); left; reflexivity.
Defined.

(** A summary record wrapped in a list hides the record after it. *)
Lemma scans_stop_at_non_object_witness :
  last_summary Demo.os_odd [Demo.text_wrapped "summary"; Demo.text_summary "B"] (VStr "")
  = VStr "".
Proof.
  apply (proj1 (scans_stop_at_non_object Demo.os_odd "summary"
                  (Demo.text_wrapped "summary") [Demo.text_summary "B"] (VStr "")
                  (Demo.doc_wrapped "summary") eq_refl eq_refl eq_refl)).
  reflexivity.
Defined.

(** ** More on the auto-compact settings *)

Lemma all_chars_no_mem p x s :
  all_chars p s = true -> p x = false -> Str.mem x s = false.
Proof.
  intros Hs Hx. induction s as [|c s IH]; [reflexivity|].
  cbn [all_chars] in Hs. apply andb_true_iff in Hs as [Hc Hs].
  cbn [Str.mem]. rewrite (IH Hs), orb_false_r.
  destruct (Ascii.eqb c x) eqn:E; [|reflexivity].
  apply Ascii.eqb_eq in E. congruence.
Qed.

Lemma of_Z_chars z : all_chars is_numeral_char (Str.of_Z z) = true.
Proof.
  assert (Hu : forall d, all_chars is_numeral_char (NilZero.string_of_uint d) = true).
  { intros d. apply (all_chars_impl is_digit).
    - intros c Hc. unfold is_numeral_char. now rewrite Hc.
    - unfold NilZero.string_of_uint. destruct d; try reflexivity;
        apply (string_of_uint_digits (_ d)). }
  unfold Str.of_Z. destruct z as [|p|p]; cbn [Z.to_int NilZero.string_of_int].
  - apply Hu.
  - apply Hu.
  - cbn [all_chars]. now rewrite Hu.
Qed.

Lemma of_Z_no_char x z : is_numeral_char x = false -> Str.mem x (Str.of_Z z) = false.
Proof. intros Hx. exact (all_chars_no_mem _ x _ (of_Z_chars z) Hx). Qed.

Lemma of_Z_not_null z : String.eqb (Str.of_Z z) "null" = false.
Proof.
  destruct (String.eqb (Str.of_Z z) "null") eqn:E; [|reflexivity].
  apply String.eqb_eq in E.
  pose proof (of_Z_no_char "n" z eq_refl) as Hn. rewrite E in Hn. discriminate.
Qed.

Lemma settings_cache_text_no_cr s : Str.mem Str.CR (settings_cache_text s) = false.
Proof.
  unfold settings_cache_text. rewrite !mem_append.
  rewrite (of_Z_no_char Str.CR (threshold s) eq_refl).
  destruct (enabled s), (bug_threshold s) as [b|];
    rewrite ?(of_Z_no_char Str.CR b eq_refl); reflexivity.
Qed.

Lemma settings_cache_text_fields s :
  Str.split "|" (settings_cache_text s)
  = [if enabled s then "true"%string else "false"%string; Str.of_Z (threshold s);
     match bug_threshold s with Some b => Str.of_Z b | None => "null"%string end].
Proof.
  unfold settings_cache_text. cbv zeta.
  change ("|" +:+ ?x) with (String "|" x). apply split_three.
  - now destruct (enabled s).
  - apply of_Z_no_char. reflexivity.
  - destruct (bug_threshold s); [apply of_Z_no_char|]; reflexivity.
Qed.

(** Reads the cache text of [s] back, given that its numerals are within
    the limit. *)
Ltac read_back_settings s Hth Hbug :=
  unfold settings_of_cache; rewrite settings_cache_text_fields; run_M;
  cbn [Py.int]; rewrite (to_Z_of_Z _ _ Hth);
  destruct s as [[] ? [?|]]; cbn [enabled threshold bug_threshold] in *;
  rewrite ?of_Z_not_null; cbn [negb];
  try rewrite (to_Z_of_Z _ _ (Hbug _ eq_refl)).

Section MoreSettings.
Variable os : OS.

(** X17: What the resolver writes to its cache is read back as the settings it
    stood for, as long as the numerals are within the limit of the
    interpreter on integer literals. *)
Theorem settings_cache_text_round_trip s0 s w :
  Str.within_limit (int_max_str_digits os) (Str.of_Z (threshold s)) = true ->
  (forall b, bug_threshold s = Some b ->
             Str.within_limit (int_max_str_digits os) (Str.of_Z b) = true) ->
  settings_of_cache os s0 (settings_cache_text s) w = (Ok (Some s), w).
Proof.
  intros Hth Hbug. unfold settings_of_cache.
  rewrite settings_cache_text_fields. run_M. cbn [Py.int].
  rewrite (to_Z_of_Z _ _ Hth).
  destruct s as [en th [b|]]; cbn [enabled threshold bug_threshold] in *.
  - rewrite of_Z_not_null. cbn [negb]. rewrite (to_Z_of_Z _ _ (Hbug b eq_refl)).
    now destruct en.
  - now destruct en.
Qed.

Lemma settings_of_config_eq settings w :
  settings_of_config os settings w
  = (Ok (if config_disables os w
         then {| enabled := false; threshold := threshold settings;
                 bug_threshold := Some 78 |}
         else settings), w).
Proof.
  unfold settings_of_config, config_disables. fold (settings_path os). run_M.
  destruct (fs w !! settings_path os) as [[c t| |]|] eqn:Hf; run_with Hf; try reflexivity.
  destruct (read_error os _); run_with Hf; try reflexivity.
  destruct (json_loads os _) as [data|e]; run_M; try reflexivity.
  destruct data; cbn [Py.get]; try reflexivity.
  destruct (Py.lookup_item "autoCompact" items) as [[| [] | | | | |]|]; reflexivity.
Qed.

(** X18: On a cache miss the configuration file decides between two answers:
    auto-compact is off, with the bug threshold 78, exactly when the file
    can be read, holds an object and the [autoCompact] of the object is
    [false] itself; in every other case, a file that is missing,
    unreadable or malformed included, the defaults stand.  The threshold
    is never taken from the file. *)
Theorem read_autocompact_settings_from_config w th :
  Py.int (int_max_str_digits os) (VStr (environ_get os OVERRIDE "95")) = Ok th ->
  cache_lookup os (settings_cache_path os) 300 w = None ->
  (read_autocompact_settings os w).1
  = Ok (if config_disables os w
        then {| enabled := false; threshold := th; bug_threshold := Some 78 |}
        else {| enabled := true; threshold := th; bug_threshold := None |}).
Proof.
  intros Hth Hmiss. rewrite (read_autocompact_settings_miss os w th Hth Hmiss).
  cbn [fst]. now rewrite settings_of_config_eq.
Qed.

(** X19: A fresh cache entry with fewer than three fields, an empty file for
    one, counts as a miss: the configuration file is read and the entry
    is written anew. *)
Theorem read_autocompact_settings_short_cache w th text :
  Py.int (int_max_str_digits os) (VStr (environ_get os OVERRIDE "95")) = Ok th ->
  cache_lookup os (settings_cache_path os) 300 w = Some text ->
  (length (Str.split "|" text) < 3)%nat ->
  let s := if config_disables os w
           then {| enabled := false; threshold := th; bug_threshold := Some 78 |}
           else {| enabled := true; threshold := th; bug_threshold := None |} in
  read_autocompact_settings os w
  = (Ok s,
     (write_cache os (settings_cache_path os) (VStr (settings_cache_text s))
        (log (CacheRead (settings_cache_path os)) w)).2).
Proof.
  intros Hth Hhit Hlen s.
  unfold read_autocompact_settings. fold OVERRIDE (settings_cache_path os).
  rewrite Hth. run_M. rewrite read_cache_eq, Hhit. run_M.
  unfold settings_of_cache.
  destruct (Str.split "|" text) as [|p0 [|p1 [|p2 rest]]]; cbn [length] in Hlen;
    try lia; run_M; rewrite settings_of_config_eq; cbv beta iota; cbn [threshold];
    change (config_disables os (log _ w)) with (config_disables os w); fold s;
    destruct (write_cache_total os (settings_cache_path os)
                (VStr (settings_cache_text s))
                (log (CacheRead (settings_cache_path os)) w)) as [m Hm];
    rewrite Hm; reflexivity.
Qed.

(** X20: On a hit the second field is converted under a guard: when it is no
    integer the threshold of the environment, or 95, stands, and the
    resolver returns.  Fields after the third are ignored. *)
Theorem read_autocompact_settings_bad_second_field w th text p0 p1 rest :
  Py.int (int_max_str_digits os) (VStr (environ_get os OVERRIDE "95")) = Ok th ->
  cache_lookup os (settings_cache_path os) 300 w = Some text ->
  Str.split "|" text = p0 :: p1 :: "null"%string :: rest ->
  Str.to_Z (int_max_str_digits os) p1 = None ->
  read_autocompact_settings os w
  = (Ok {| enabled := String.eqb p0 "true"; threshold := th; bug_threshold := None |},
     log (CacheRead (settings_cache_path os)) w).
Proof.
  intros Hth Hhit Hsplit Hp1.
  rewrite (read_autocompact_settings_hit os w th text p0 p1 "null" rest None
             Hth Hhit Hsplit eq_refl).
  now rewrite Hp1.
Qed.
End MoreSettings.

(** X21: For 300 seconds after a miss the settings come from the cache:
    a configuration file or an override that changed in between is not
    seen. *)
Theorem read_autocompact_settings_idempotent os os2 w th th2 s w1 w2 :
  Py.int (int_max_str_digits os) (VStr (environ_get os OVERRIDE "95")) = Ok th ->
  cache_lookup os (settings_cache_path os) 300 w = None ->
  writable os w (settings_cache_path os) ->
  read_autocompact_settings os w = (Ok s, w1) ->
  Py.int (int_max_str_digits os2) (VStr (environ_get os2 OVERRIDE "95")) = Ok th2 ->
  Str.within_limit (int_max_str_digits os2) (Str.of_Z th) = true ->
  settings_cache_path os2 = settings_cache_path os ->
  is_windows os2 = is_windows os ->
  read_error os2 (settings_cache_path os) = None ->
  fs w2 !! settings_cache_path os = fs w1 !! settings_cache_path os ->
  (now w2 - now w <= 300)%Q ->
  read_autocompact_settings os2 w2
  = (Ok s, log (CacheRead (settings_cache_path os)) w2).
Proof.
  intros Hth Hmiss Hw Hrun Hth2 Hlim Hcp Hwin Hread Hfs Hage.
  set (cp := settings_cache_path os) in *.
  assert (Hrun' := Hrun).
  rewrite (read_autocompact_settings_miss os w th Hth Hmiss) in Hrun'.
  rewrite settings_of_config_eq in Hrun'. cbn [fst] in Hrun'.
  change (config_disables os (log _ w)) with (config_disables os w) in Hrun'.
  injection Hrun' as Hs Hw1. rewrite Hs in Hw1.
  assert (Hwr : writable os (log (CacheRead cp) w) cp) by exact Hw.
  fold cp in Hw1. rewrite (write_cache_str os cp _ _ Hwr) in Hw1. cbn [snd] in Hw1.
  assert (Hfile : fs w2 !! cp
                  = Some (File (Str.write_newlines (linesep os) (settings_cache_text s))
                            (now w))).
  { rewrite Hfs, <- Hw1. cbn. apply lookup_insert_eq. }
  assert (Hhit : cache_lookup os2 (settings_cache_path os2) 300 w2
                 = Some (settings_cache_text s)).
  { rewrite Hcp. fold cp. rewrite (cache_lookup_fresh os2 cp 300 w2 _ _ Hfile Hage Hread).
    now rewrite newline_round_trip by apply settings_cache_text_no_cr. }
  assert (Hlim_th :
            Str.within_limit (int_max_str_digits os2) (Str.of_Z (threshold s)) = true).
  { rewrite <- Hs. now destruct (config_disables os w). }
  assert (Hlim_bug : forall b, bug_threshold s = Some b ->
            Str.within_limit (int_max_str_digits os2) (Str.of_Z b) = true).
  { intros b Hb. rewrite <- Hs in Hb. destruct (config_disables os w); [|discriminate].
    injection Hb as <-. apply small_literal_within_limit. vm_compute. lia. }
  clear Hs Hrun Hw1 Hfile.
  unfold read_autocompact_settings. fold OVERRIDE (settings_cache_path os2).
  rewrite Hth2. run_M. rewrite read_cache_eq, Hhit. run_M.
  read_back_settings s Hlim_th Hlim_bug; rewrite Hcp; reflexivity.
Qed.

Lemma settings_cache_text_round_trip_witness :
  settings_of_cache Demo.os
    {| enabled := true; threshold := 95; bug_threshold := None |}
    (settings_cache_text {| enabled := false; threshold := 80; bug_threshold := Some 78 |})
    Demo.w0
  = (Ok (Some {| enabled := false; threshold := 80; bug_threshold := Some 78 |}), Demo.w0).
Proof.
  apply (settings_cache_text_round_trip Demo.os
           {| enabled := true; threshold := 95; bug_threshold := None |}
           {| enabled := false; threshold := 80; bug_threshold := Some 78 |} Demo.w0).
  - reflexivity.
  - intros b Hb. injection Hb as <-. reflexivity.
Defined.

(** The configuration file switches auto-compact off. *)
Lemma read_autocompact_settings_from_config_witness :
  (read_autocompact_settings Demo.os (Demo.w_config Demo.text_autocompact_off)).1
  = Ok {| enabled := false; threshold := 95; bug_threshold := Some 78 |}.
Proof.
  apply (read_autocompact_settings_from_config Demo.os
           (Demo.w_config Demo.text_autocompact_off) 95); reflexivity.
Defined.

(** An empty cache file. *)
Lemma read_autocompact_settings_short_cache_witness :
  read_autocompact_settings Demo.os (Demo.w_settings_cache "")
  = (Ok {| enabled := true; threshold := 95; bug_threshold := None |},
     (write_cache Demo.os (settings_cache_path Demo.os) (VStr "true|95|null")
        (log (CacheRead (settings_cache_path Demo.os)) (Demo.w_settings_cache ""))).2).
Proof.
  apply (read_autocompact_settings_short_cache Demo.os (Demo.w_settings_cache "") 95 "").
  - reflexivity.
  - reflexivity.
  - vm_compute. lia.
Defined.

Lemma read_autocompact_settings_bad_second_field_witness :
  read_autocompact_settings Demo.os (Demo.w_settings_cache "false|abc|null|more")
  = (Ok {| enabled := false; threshold := 95; bug_threshold := None |},
     log (CacheRead (settings_cache_path Demo.os))
       (Demo.w_settings_cache "false|abc|null|more")).
Proof.
  apply (read_autocompact_settings_bad_second_field Demo.os
           (Demo.w_settings_cache "false|abc|null|more") 95 "false|abc|null|more"
           "false" "abc" ["more"%string]); reflexivity.
Defined.

(** The second resolution is made with the override 50 in the
    environment. *)
Lemma read_autocompact_settings_idempotent_witness :
  let w1 := (read_autocompact_settings Demo.os
               (Demo.w_config Demo.text_autocompact_off)).2 in
  read_autocompact_settings (Demo.with_environ {[ OVERRIDE := "50"%string ]} Demo.os) w1
  = (Ok {| enabled := false; threshold := 95; bug_threshold := Some 78 |},
     log (CacheRead (settings_cache_path Demo.os)) w1).
Proof.
  intros w1.
  apply (read_autocompact_settings_idempotent Demo.os
           (Demo.with_environ {[ OVERRIDE := "50"%string ]} Demo.os)
           (Demo.w_config Demo.text_autocompact_off) 95 50
           {| enabled := false; threshold := 95; bug_threshold := Some 78 |} w1 w1);
    try (reflexivity || discriminate).
  all: try (split; [reflexivity | split; vm_compute; discriminate]).
  all: vm_compute; discriminate.
Defined.

(** ** The terminal key and the transport *)


Lemma logged_one ev w : log ev w = logged [ev] w.
Proof. reflexivity. Qed.

Lemma logged_logged evs1 evs2 w : logged evs2 (logged evs1 w) = logged (evs1 ++ evs2) w.
Proof. unfold logged. cbn. now rewrite app_assoc. Qed.

Section TerminalAndTransport.
Variable os : OS.

(** X22: The key is that of the first variable, in the order iTerm, kitty,
    WezTerm, Windows Terminal, Terminal, that is set to a non-empty
    value: its prefix, a colon and the value.  It is empty when there is
    none. *)
Theorem build_terminal_key_first_set :
  build_terminal_key os
  = match List.find (fun v => is_set os v.1) terminal_variables with
    | Some (name, prefix) => prefix +:+ ":" +:+ environ_get os name ""
    | None => EmptyString
    end.
Proof.
  unfold build_terminal_key, terminal_variables, is_set. cbn [List.find fst snd].
  repeat match goal with
         | |- context [negb (Str.is_empty ?s)] => destruct (negb (Str.is_empty s))
         end; reflexivity.
Qed.

(** The key is empty exactly when none of the five variables is set to a
    non-empty value: a key always names its terminal. *)
Theorem build_terminal_key_empty_iff :
  build_terminal_key os = EmptyString <->
  forallb (fun v => negb (is_set os v.1)) terminal_variables = true.
Proof.
  unfold build_terminal_key, terminal_variables, is_set. cbn [forallb fst snd].
  repeat match goal with
         | |- context [negb (Str.is_empty ?s)] => destruct (negb (Str.is_empty s))
         end; cbn [negb andb];
    try (split; [rewrite append_cons; discriminate | discriminate]).
  split; reflexivity.
Qed.


(** X24: On a POSIX platform a server that listens on an existing socket gets
    the payload: one connection, one send of the encoded payload and a
    line feed, and the send reports success. *)
Theorem send_to_server_delivers payload w encoded :
  is_windows os = false ->
  json_dumps os payload = Ok encoded ->
  fs w !! socket_path os <> None ->
  socket_connect os (socket_path os) = Ok tt ->
  socket_sendall os (socket_path os) (encoded +:+ String Str.LF EmptyString) = Ok tt ->
  socket_close os (socket_path os) = Ok tt ->
  send_to_server os payload w
  = (Ok true,
     logged [Connect (socket_path os);
             SendAll (socket_path os) (encoded +:+ String Str.LF EmptyString)] w).
Proof.
  intros Hposix Henc Hsock Hconn Hsend Hclose.
  unfold send_to_server. fold (socket_path os). rewrite Hposix, Henc. run_M.
  destruct (fs w !! socket_path os) eqn:Hf; [|congruence]. run_M.
  rewrite Hconn. run_M. rewrite Hsend. run_M. rewrite Hclose. run_M.
  now rewrite !logged_one, logged_logged.
Qed.

(** On Windows the pipe is opened without a test of its existence: one
    write is attempted, and the send reports whether it succeeded. *)
Theorem send_to_server_windows payload w encoded :
  is_windows os = true ->
  json_dumps os payload = Ok encoded ->
  send_to_server os payload w
  = (Ok (match pipe_write os (socket_path os) (encoded +:+ String Str.LF EmptyString) with
         | Ok _ => true
         | Raise _ => false
         end),
     logged [PipeWrite (socket_path os) (encoded +:+ String Str.LF EmptyString)] w).
Proof.
  intros Hwin Henc. unfold send_to_server. fold (socket_path os).
  rewrite Hwin, Henc. run_M. rewrite logged_one.
  destruct (pipe_write os _ _); reflexivity.
Qed.
End TerminalAndTransport.

Lemma send_to_server_delivers_witness :
  send_to_server (Demo.with_server Demo.os) (VDict [("event", VStr "context_update")])
    Demo.w_socket
  = (Ok true,
     logged
       [Connect "/tmp/jacques.sock";
        SendAll "/tmp/jacques.sock"
          (Demo.dumps (VDict [("event", VStr "context_update")])
           +:+ String Str.LF EmptyString)]
       Demo.w_socket).
Proof.
  apply (send_to_server_delivers (Demo.with_server Demo.os)
           (VDict [("event", VStr "context_update")]) Demo.w_socket
           (Demo.dumps (VDict [("event", VStr "context_update")])));
    (reflexivity || discriminate).
Defined.

(** The pipe of the host [Demo.os_windows] refuses the write. *)
Lemma send_to_server_windows_witness :
  send_to_server Demo.os_windows (VDict []) Demo.w0
  = (Ok false,
     logged [PipeWrite "\\.\pipe\jacques" ("{}" +:+ String Str.LF EmptyString)] Demo.w0).
Proof.
  apply (send_to_server_windows Demo.os_windows (VDict []) Demo.w0 "{}"); reflexivity.
Defined.

(** ** More on the orchestrator *)

Lemma forallb_app_true {A} (p : A -> bool) l1 l2 :
  forallb p l1 = true -> forallb p l2 = true -> forallb p (l1 ++ l2) = true.
Proof. intros H1 H2. rewrite forallb_app, H1, H2. reflexivity. Qed.

(** The fields are read unless [context_window] is there and is no
    object. *)
Lemma extract_fields_cases items :
  match Py.lookup_item "context_window" items with
  | Some (VDict _) | None => exists f, extract_fields (VDict items) = Ok f
  | Some _ => extract_fields (VDict items) = Raise AttributeError
  end.
Proof.
  unfold extract_fields. cbn [Py.get rbind].
  destruct (Py.lookup_item "context_window" items) as [[]|]; try reflexivity;
    cbn [Py.get rbind Py.isinstance_dict];
    destruct (Py.lookup_item "model" items) as [[]|];
    cbn [Py.get rbind Py.isinstance_dict];
    destruct (Py.lookup_item "workspace" items) as [[]|];
    cbn [Py.get rbind Py.isinstance_dict];
    try (destruct (Py.truthy _)); cbn [rbind]; eauto.
Qed.

Section MoreMain.
Variable os : OS.

(** X25: The silent exits: with [JACQUES_SUBPROCESS] or [JACQUES_SKIP] set to
    [1], with a skip file, with standard input that does not parse, and
    with input that parses to a falsy value, the run ends at once: it
    returns, and the world is as it was. *)
Theorem main_silent stdin w :
  environ os !! "JACQUES_SUBPROCESS" = Some "1"%string \/
  environ os !! "JACQUES_SKIP" = Some "1"%string \/
  (exists c t, fs w !! skip_file os = Some (File c t)) \/
  (exists e, json_loads os stdin = Raise e) \/
  (exists v, json_loads os stdin = Ok v /\ Py.truthy v = false) ->
  main os stdin w = (Ok tt, w).
Proof.
  intros H. unfold main. fold (skip_file os).
  destruct (bool_decide (environ os !! "JACQUES_SUBPROCESS" = Some "1"%string)) eqn:B1;
    [reflexivity|].
  destruct (bool_decide (environ os !! "JACQUES_SKIP" = Some "1"%string)) eqn:B2;
    [reflexivity|].
  apply bool_decide_eq_false in B1, B2.
  destruct H as [H | [H | H]]; [congruence | congruence |]. run_M.
  destruct H as [(c & t & ->) | H]; [reflexivity|].
  destruct (fs w !! skip_file os) as [[c t| |]|]; try reflexivity;
    destruct H as [(e & ->) | (v & -> & ->)]; reflexivity.
Qed.

(** X26: Input that parses to a truthy value that is no object, a list or a
    number for one, makes the run raise [AttributeError] at the first
    field; the world is as it was. *)
Theorem main_input_not_object stdin w input :
  runs os w ->
  json_loads os stdin = Ok input ->
  Py.truthy input = true ->
  Py.isinstance_dict input = false ->
  main os stdin w = (Raise AttributeError, w).
Proof.
  intros (Hsub & Hskip & Hfile) Hjson Htruthy Hobj.
  unfold main. rewrite !bool_decide_eq_false_2 by assumption.
  fold (skip_file os). run_M.
  destruct (fs w !! skip_file os) as [[c t| |]|] eqn:Hf; try (now destruct (Hfile c t));
    rewrite Hjson, Htruthy; run_M; destruct input; try discriminate; reflexivity.
Qed.

(** X27: Of the fields of the event only [context_window] must be an object
    when it is there: reading the fields raises exactly when it is
    something else, [null] included.  A [model] or a [workspace] that is
    no object is passed over. *)
Theorem extract_fields_raises_iff items :
  (exists e, extract_fields (VDict items) = Raise e) <->
  (exists v, Py.lookup_item "context_window" items = Some v /\
             Py.isinstance_dict v = false).
Proof.
  pose proof (extract_fields_cases items) as H.
  destruct (Py.lookup_item "context_window" items) as [v|].
  - destruct v; try (split; [intros _; eexists; split; reflexivity | eauto]).
    destruct H as [f Hf]. split.
    + intros [e He]. congruence.
    + intros (v & [= <-] & Hv). discriminate.
  - destruct H as [f Hf]. split.
    + intros [e He]. congruence.
    + intros (v & Hv & _). discriminate.
Qed.

(** A [context_window] that is no object ends the run with
    [AttributeError] before any resolver is called: the world is as it
    was. *)
Theorem main_context_window_not_object stdin w items v :
  runs os w ->
  json_loads os stdin = Ok (VDict items) ->
  Py.lookup_item "context_window" items = Some v ->
  Py.isinstance_dict v = false ->
  main os stdin w = (Raise AttributeError, w).
Proof.
  intros (Hsub & Hskip & Hfile) Hjson Hctx Hobj.
  assert (Htruthy : Py.truthy (VDict items) = true).
  { destruct items; [discriminate | reflexivity]. }
  assert (Hfields : extract_fields (VDict items) = Raise AttributeError).
  { pose proof (extract_fields_cases items) as H. rewrite Hctx in H.
    destruct v; try exact H. discriminate. }
  unfold main. rewrite !bool_decide_eq_false_2 by assumption.
  fold (skip_file os). run_M.
  destruct (fs w !! skip_file os) as [[c t| |]|] eqn:Hf; try (now destruct (Hfile c t));
    rewrite Hjson, Htruthy; run_M; rewrite Hfields; reflexivity.
Qed.

(** X28: A session id that is truthy and no string, a number for one, ends the
    run with [AttributeError] once git detection is done: nothing is
    sent and nothing is printed. *)
Theorem main_session_id_not_string stdin w input f g w1 :
  runs os w ->
  json_loads os stdin = Ok input ->
  Py.truthy input = true ->
  extract_fields input = Ok f ->
  Py.truthy (session_id f) = true ->
  (forall s, session_id f <> VStr s) ->
  git_step os f w = (Ok g, w1) ->
  main os stdin w = (Raise AttributeError, w1).
Proof.
  intros (Hsub & Hskip & Hfile) Hjson Htruthy Hfields Hsid Hns Hgit.
  assert (Htitle : extract_session_title os (session_id f) (transcript_path f) w1
                   = (Raise AttributeError, w1)).
  { unfold extract_session_title. rewrite Hsid. cbn [negb].
    destruct (session_id f); try reflexivity. now destruct (Hns s). }
  unfold main. rewrite !bool_decide_eq_false_2 by assumption.
  fold (skip_file os). run_M.
  destruct (fs w !! skip_file os) as [[c t| |]|] eqn:Hf; try (now destruct (Hfile c t));
    rewrite Hjson, Htruthy; run_M; rewrite Hfields, Hgit, Htitle; reflexivity.
Qed.


(** X30: The shape of every run, however it ends: first the resolvers with
    their cache accesses and subprocesses, then the transport, then at
    most one line on standard output; and a run that printed its line
    returned.  So nothing is sent before the resolvers are done, nothing
    is printed before the send, and a run that raises prints nothing. *)
Theorem main_trace_shape stdin w :
  exists r w' res tr out,
    main os stdin w = (r, w') /\
    trace w' = trace w ++ res ++ tr ++ out /\
    forallb is_resolver_event res = true /\
    forallb is_transport tr = true /\
    (out = [] \/ exists line, out = [Stdout line] /\ r = Ok tt).
Proof.
  assert (Hquiet : forall (r : result unit) w' res tr,
             trace w' = trace w ++ res ++ tr ->
             forallb is_resolver_event res = true ->
             forallb is_transport tr = true ->
             exists r0 w0 res0 tr0 out,
               (r, w') = (r0, w0) /\
               trace w0 = trace w ++ res0 ++ tr0 ++ out /\
               forallb is_resolver_event res0 = true /\
               forallb is_transport tr0 = true /\
               (out = [] \/ exists line, out = [Stdout line] /\ r0 = Ok tt)).
  { intros r w' res tr Ht Hres Htr. exists r, w', res, tr, [].
    rewrite app_nil_r. repeat (split; [assumption || reflexivity|]). now left. }
  assert (Hstill : forall r : result unit,
             exists r0 w0 res0 tr0 out,
               (r, w) = (r0, w0) /\
               trace w0 = trace w ++ res0 ++ tr0 ++ out /\
               forallb is_resolver_event res0 = true /\
               forallb is_transport tr0 = true /\
               (out = [] \/ exists line, out = [Stdout line] /\ r0 = Ok tt)).
  { intros r. apply (Hquiet r w [] []); [now rewrite !app_nil_r | reflexivity..]. }
  unfold main.
  destruct (bool_decide _); [apply Hstill|].
  destruct (bool_decide _); [apply Hstill|].
  unfold bind at 1, isfile at 1. cbv beta iota zeta.
  match goal with
  | |- context [(if ?b then _ else _) w] => destruct b
  end; [apply Hstill|].
  destruct (json_loads os stdin) as [input|e]; [|apply Hstill].
  destruct (Py.truthy input); cbn [negb]; cbv beta iota; [|apply Hstill].
  unfold bind at 1, time at 1. cbv beta iota.
  unfold bind at 1, lift at 1. cbv beta iota.
  destruct (extract_fields input) as [f|e]; [|apply Hstill].
  destruct (emits_git_step os f w) as (evs1 & Ht1 & H1).
  unfold bind at 1.
  destruct (git_step os f w) as [[g|e] w1]; cbn [snd] in Ht1;
    [|apply (Hquiet _ _ evs1 []); [now rewrite app_nil_r | exact H1 | reflexivity]].
  destruct (emits_extract_session_title os (session_id f) (transcript_path f) w1)
    as (evs2 & Ht2 & H2).
  unfold bind at 1.
  destruct (extract_session_title os (session_id f) (transcript_path f) w1)
    as [[title|e] w2]; cbn [snd] in Ht2;
    [|apply (Hquiet _ _ (evs1 ++ evs2) []);
      [now rewrite Ht2, Ht1, app_nil_r, app_assoc
      | now apply forallb_app_true | reflexivity]].
  destruct (emits_read_autocompact_settings os w2) as (evs3 & Ht3 & H3).
  unfold bind at 1.
  destruct (read_autocompact_settings os w2) as [[ac|e] w3]; cbn [snd] in Ht3;
    [|apply (Hquiet _ _ (evs1 ++ evs2 ++ evs3) []);
      [now rewrite Ht3, Ht2, Ht1, app_nil_r, !app_assoc
      | now repeat apply forallb_app_true | reflexivity]].
  assert (Hw3 : trace w3 = trace w ++ (evs1 ++ evs2 ++ evs3)).
  { now rewrite Ht3, Ht2, Ht1, !app_assoc. }
  assert (Hres : forallb is_resolver_event (evs1 ++ evs2 ++ evs3) = true).
  { now repeat apply forallb_app_true. }
  destruct (negb (Py.truthy (session_id f))).
  - eexists (Ok tt), _, (evs1 ++ evs2 ++ evs3), [], [Stdout _].
    split; [reflexivity|]. cbn [trace log app]. rewrite Hw3, <- app_assoc.
    split; [reflexivity|]. split; [exact Hres|]. split; [reflexivity|]. eauto.
  - set (payload := build_payload _ _ _ _ _ _).
    destruct (emits_send_to_server os payload w3) as (evs4 & Ht4 & H4).
    destruct (returns_send_to_server os payload w3) as (delivered & w4 & Hsend).
    rewrite Hsend in Ht4. cbn [snd] in Ht4.
    unfold bind at 1. rewrite Hsend. run_M.
    destruct (used_int_of os (used_pct f)) as [used|e].
    + eexists (Ok tt), _, (evs1 ++ evs2 ++ evs3), evs4, [Stdout _].
      split; [reflexivity|]. cbn [trace log]. rewrite Ht4, Hw3, <- !app_assoc.
      split; [reflexivity|]. split; [exact Hres|]. split; [exact H4|]. eauto.
    + apply (Hquiet _ _ (evs1 ++ evs2 ++ evs3) evs4);
        [now rewrite Ht4, Hw3, <- !app_assoc | exact Hres | exact H4].
Qed.
End MoreMain.

(** [JACQUES_SKIP=1] with a well-formed event on standard input. *)
Lemma main_silent_witness :
  main (Demo.with_environ {[ "JACQUES_SKIP"%string := "1"%string ]} Demo.os)
    Demo.text_s1 Demo.w0
  = (Ok tt, Demo.w0).
Proof.
  apply (main_silent (Demo.with_environ {[ "JACQUES_SKIP"%string := "1"%string ]} Demo.os)
           Demo.text_s1 Demo.w0).
  right. left. reflexivity.
Defined.

(** The event [[1]]. *)
Lemma main_input_not_object_witness :
  main Demo.os_odd Demo.text_list_event Demo.w0 = (Raise AttributeError, Demo.w0).
Proof.
  apply (main_input_not_object Demo.os_odd Demo.text_list_event Demo.w0
           Demo.doc_list_event); try reflexivity.
  split; [discriminate | split; [discriminate | intros c t; vm_compute; discriminate]].
Defined.

(** An event whose [context_window] is the number 5. *)
Lemma main_context_window_not_object_witness :
  main Demo.os_odd Demo.text_window_number Demo.w0 = (Raise AttributeError, Demo.w0).
Proof.
  apply (main_context_window_not_object Demo.os_odd Demo.text_window_number Demo.w0
           [("session_id", VStr "s1"); ("context_window", VInt 5)] (VInt 5));
    try reflexivity.
  split; [discriminate | split; [discriminate | intros c t; vm_compute; discriminate]].
Defined.

(** An event whose [session_id] is the number 7. *)
Lemma main_session_id_not_string_witness :
  main Demo.os_odd Demo.text_session_number Demo.w0 = (Raise AttributeError, Demo.w0).
Proof.
  apply (main_session_id_not_string Demo.os_odd Demo.text_session_number Demo.w0
           Demo.doc_session_number
           {| session_id := VInt 7; used_pct := VInt 0; remaining_pct := VInt 100;
              ctx_size := VInt 0; total_input := VInt 0; total_output := VInt 0;
              model := VStr "unknown"; model_display := VStr "Unknown";
              cwd := VStr ""; project_dir := VStr ""; transcript_path := VStr "" |}
           no_git Demo.w0); try reflexivity.
  - split; [discriminate | split; [discriminate | intros c t; vm_compute; discriminate]].
  - discriminate.
Defined.

